(** * Detritus: two-channel switch/relay firmware (Detritus.ino)

    A shallow embedding of the control logic of the sketch: the global
    variables become one [State] record, every [void f()] of the sketch
    becomes a function [State -> State], and the calls into the Arduino
    core and the libraries (GPIO, millis, WiFiManager, PubSubClient,
    ArduinoOTA) become either inputs of the cycle or entries appended to
    an event log kept in the state. *)

From Stdlib Require Import ZArith String Ascii List Bool Lia.
Import ListNotations.

Local Open Scope string_scope.
Local Open Scope Z_scope.
Local Open Scope list_scope.

(** ** Constants of the sketch *)

Definition CONFIG_TIMEOUT_MS : Z := 300000.
Definition OTA_TIMEOUT_MS : Z := 300000.
Definition LOOP_DELAY_MS : Z := 10.
Definition MANUAL_SETUP_MAX_DELAY_MS : Z := 500.
Definition MANUAL_SETUP_COUNTER : Z := 5.

Definition CMD_ON : string := "1".
Definition CMD_OFF : string := "0".
Definition CMD_SETUP : string := "set".
Definition CMD_OTA : string := "ota".
Definition CMD_RESET : string := "rst".

(** ** Machine integers

    [unsigned long] is 32 bits wide on the ESP8285: arithmetic is modulo
    2^32.  [int] is a signed 32-bit integer; [int_wrap] is the
    two's-complement reading of a result. *)

Definition ULONG_MOD : Z := 2 ^ 32.
Definition ulong (z : Z) : Z := z mod ULONG_MOD.
Definition usub (a b : Z) : Z := ulong (a - b).
Definition uadd (a b : Z) : Z := ulong (a + b).
Definition int_wrap (z : Z) : Z := (z + 2 ^ 31) mod 2 ^ 32 - 2 ^ 31.

(** ** C strings

    A [char] buffer is a list of characters; read as a C string it ends
    at the first NUL.  Topic names and configuration values are kept as
    [string]s holding the characters before the terminator. *)

Definition NUL : ascii := Ascii.zero.

Fixpoint cstr (buf : list ascii) : string :=
  match buf with
  | [] => EmptyString
  | c :: rest => if Ascii.eqb c NUL then EmptyString else String c (cstr rest)
  end.

(** [strcmp(a, b) == 0] *)
Definition strcmp0 (a b : string) : bool := String.eqb a b.

(** [String::startsWith] *)
Definition startsWith (s pre : string) : bool := String.prefix pre s.

(** ** The global variables *)

(** The configuration block ([mqtt*] buffers and the three policy flags),
    loaded at boot and replaced by [saveParamsCallback]. *)
Record Config := mkConfig {
  mqttServer : string;
  mqttPort : string;
  mqttClientName : string;
  mqttUser : string;
  mqttPassword : string;
  mqttOutTopic1 : string;
  mqttInTopic1 : string;
  mqttOutTopic2 : string;
  mqttInTopic2 : string;
  swapRelays : bool;
  invertSwitch : bool;
  respectSwitchState : bool
}.

(** Switch and relay state, with the level last written to each relay pin. *)
Record Gpio := mkGpio {
  s1State : bool;
  s2State : bool;
  l1State : bool;
  l2State : bool;
  pinRELAY_L1 : bool;
  pinRELAY_L2 : bool
}.

Record Gesture := mkGesture {
  manualSetupActivatorTime : Z;
  manualSetupModeCounter : Z
}.

(** The mode flags; [ledTicker] holds the period of the attached ticker. *)
Record Mode := mkMode {
  wifiManagerSetupRunning : bool;
  wifiManagerSetupStart : Z;
  otaRunning : bool;
  otaStart : Z;
  restart : bool;
  ledTicker : option Z
}.

(** The broker connection; [mqttConnected] is what [mqttClient.connected()]
    answers. *)
Record Mqtt := mkMqtt {
  offline : bool;
  mqttConnected : bool;
  mqttConnectAttempt : Z;
  mqttConnectDelay : Z
}.

(** What the firmware does to the outside world. *)
Inductive Event :=
| EvPublish (topic payload : string) (retained : bool)
| EvSubscribe (topic : string)
| EvConnect (client user password : string) (ok : bool)
| EvSetServer (host port : string)
| EvStartConfigPortal (apName : string)
| EvStopConfigPortal
| EvSaveConfig (c : Config)
| EvOtaBegin
| EvOtaHandle.

Record State := mkState {
  config : Config;
  gpio : Gpio;
  gesture : Gesture;
  mode : Mode;
  mqtt : Mqtt;
  clock : Z;
  events : list Event
}.

Coercion config : State >-> Config.
Coercion gpio : State >-> Gpio.
Coercion gesture : State >-> Gesture.
Coercion mode : State >-> Mode.
Coercion mqtt : State >-> Mqtt.

(** *** Assignments to the globals *)

Definition with_config (c : Config) (st : State) : State :=
  mkState c st st st st (clock st) (events st).
Definition with_gpio (g : Gpio) (st : State) : State :=
  mkState st g st st st (clock st) (events st).
Definition with_gesture (g : Gesture) (st : State) : State :=
  mkState st st g st st (clock st) (events st).
Definition with_mode (m : Mode) (st : State) : State :=
  mkState st st st m st (clock st) (events st).
Definition with_mqtt (m : Mqtt) (st : State) : State :=
  mkState st st st st m (clock st) (events st).
Definition with_clock (t : Z) (st : State) : State :=
  mkState st st st st st t (events st).
Definition emit (e : Event) (st : State) : State :=
  mkState st st st st st (clock st) (events st ++ [e]).

Definition set_s1State (v : bool) (st : State) : State :=
  with_gpio (mkGpio v (s2State st) (l1State st) (l2State st)
               (pinRELAY_L1 st) (pinRELAY_L2 st)) st.
Definition set_s2State (v : bool) (st : State) : State :=
  with_gpio (mkGpio (s1State st) v (l1State st) (l2State st)
               (pinRELAY_L1 st) (pinRELAY_L2 st)) st.
Definition set_l1State (v : bool) (st : State) : State :=
  with_gpio (mkGpio (s1State st) (s2State st) v (l2State st)
               (pinRELAY_L1 st) (pinRELAY_L2 st)) st.
Definition set_l2State (v : bool) (st : State) : State :=
  with_gpio (mkGpio (s1State st) (s2State st) (l1State st) v
               (pinRELAY_L1 st) (pinRELAY_L2 st)) st.
Definition write_RELAY_L1 (level : bool) (st : State) : State :=
  with_gpio (mkGpio (s1State st) (s2State st) (l1State st) (l2State st)
               level (pinRELAY_L2 st)) st.
Definition write_RELAY_L2 (level : bool) (st : State) : State :=
  with_gpio (mkGpio (s1State st) (s2State st) (l1State st) (l2State st)
               (pinRELAY_L1 st) level) st.

Definition set_manualSetupActivatorTime (t : Z) (st : State) : State :=
  with_gesture (mkGesture t (manualSetupModeCounter st)) st.
Definition set_manualSetupModeCounter (n : Z) (st : State) : State :=
  with_gesture (mkGesture (manualSetupActivatorTime st) n) st.

Definition set_wifiManagerSetupRunning (v : bool) (st : State) : State :=
  with_mode (mkMode v (wifiManagerSetupStart st) (otaRunning st) (otaStart st)
               (restart st) (ledTicker st)) st.
Definition set_wifiManagerSetupStart (t : Z) (st : State) : State :=
  with_mode (mkMode (wifiManagerSetupRunning st) t (otaRunning st) (otaStart st)
               (restart st) (ledTicker st)) st.
Definition set_otaRunning (v : bool) (st : State) : State :=
  with_mode (mkMode (wifiManagerSetupRunning st) (wifiManagerSetupStart st) v
               (otaStart st) (restart st) (ledTicker st)) st.
Definition set_otaStart (t : Z) (st : State) : State :=
  with_mode (mkMode (wifiManagerSetupRunning st) (wifiManagerSetupStart st)
               (otaRunning st) t (restart st) (ledTicker st)) st.
Definition set_restart (v : bool) (st : State) : State :=
  with_mode (mkMode (wifiManagerSetupRunning st) (wifiManagerSetupStart st)
               (otaRunning st) (otaStart st) v (ledTicker st)) st.
Definition attach_ledTicker (period : Z) (st : State) : State :=
  with_mode (mkMode (wifiManagerSetupRunning st) (wifiManagerSetupStart st)
               (otaRunning st) (otaStart st) (restart st) (Some period)) st.

Definition set_offline (v : bool) (st : State) : State :=
  with_mqtt (mkMqtt v (mqttConnected st) (mqttConnectAttempt st)
               (mqttConnectDelay st)) st.
Definition set_mqttConnected (v : bool) (st : State) : State :=
  with_mqtt (mkMqtt (offline st) v (mqttConnectAttempt st)
               (mqttConnectDelay st)) st.
Definition set_mqttConnectAttempt (t : Z) (st : State) : State :=
  with_mqtt (mkMqtt (offline st) (mqttConnected st) t (mqttConnectDelay st)) st.
Definition set_mqttConnectDelay (d : Z) (st : State) : State :=
  with_mqtt (mkMqtt (offline st) (mqttConnected st) (mqttConnectAttempt st) d) st.

(** [millis()] reads the millisecond clock, an [unsigned long].  The
    clock advances between two cycles and in [delay]; the reads made
    within one pass of the loop see the same value. *)
Definition millis (st : State) : Z := clock st.

(** ** Status Publisher *)

(** [mqttClient.publish(topic, msg, retained)]: [msg] is read as a C string. *)
Definition publish (topic : string) (msg : list ascii) (retained : bool)
    (st : State) : State :=
  emit (EvPublish topic (cstr msg) retained) st.

Definition mqttCommunicate (l1Report : bool) (st : State) : State :=
  if negb (offline st) && mqttConnected st then
    if l1Report then
      let m0 := if l1State st then "1"%char else "0"%char in
      let m1 :=
        if swapRelays st then
          if invertSwitch st then (if s2State st then NUL else "."%char)
          else (if s2State st then "."%char else NUL)
        else
          if invertSwitch st then (if s1State st then NUL else "."%char)
          else (if s1State st then "."%char else NUL) in
      publish (mqttOutTopic1 st) [m0; m1; NUL] true st
    else
      let m0 := if l2State st then "1"%char else "0"%char in
      let m1 :=
        if swapRelays st then
          if invertSwitch st then (if s1State st then NUL else "."%char)
          else (if s1State st then "."%char else NUL)
        else
          if invertSwitch st then (if s2State st then NUL else "."%char)
          else (if s2State st then "."%char else NUL) in
      publish (mqttOutTopic2 st) [m0; m1; NUL] true st
  else st.

(** ** Relay outputs ([HIGH] is [true]) *)

Definition enableL1 (st : State) : State :=
  mqttCommunicate true (set_l1State true (write_RELAY_L1 true st)).
Definition enableL2 (st : State) : State :=
  mqttCommunicate false (set_l2State true (write_RELAY_L2 true st)).
Definition disableL1 (st : State) : State :=
  mqttCommunicate true (set_l1State false (write_RELAY_L1 false st)).
Definition disableL2 (st : State) : State :=
  mqttCommunicate false (set_l2State false (write_RELAY_L2 false st)).

(** ** Configuration portal *)

(** The AP callback registered with [setAPCallback]. *)
Definition wifiManagerSetupStarted (st : State) : State :=
  let st := attach_ledTicker 1000 st in
  let st := set_wifiManagerSetupRunning true st in
  set_wifiManagerSetupStart (millis st) st.

Definition wifiManagerSetupStopped (st : State) : State :=
  set_restart true st.

(** The values the portal form holds when it is saved
    ([custom*.getValue()]). *)
Record PortalParams := mkPortalParams {
  pMqttServer : string;
  pMqttPort : string;
  pMqttClientName : string;
  pMqttUser : string;
  pMqttPassword : string;
  pMqttOutTopic1 : string;
  pMqttInTopic1 : string;
  pMqttOutTopic2 : string;
  pMqttInTopic2 : string;
  pSwapRelays : string;
  pRespectSwitchState : string;
  pInvertSwitch : string
}.

Definition saveParamsCallback (p : PortalParams) (st : State) : State :=
  let c := mkConfig (pMqttServer p) (pMqttPort p) (pMqttClientName p)
             (pMqttUser p) (pMqttPassword p)
             (pMqttOutTopic1 p) (pMqttInTopic1 p)
             (pMqttOutTopic2 p) (pMqttInTopic2 p)
             (strcmp0 "true" (pSwapRelays p))
             (strcmp0 "true" (pInvertSwitch p))
             (strcmp0 "true" (pRespectSwitchState p)) in
  let st := with_config c st in
  let st := emit (EvSaveConfig c) st in
  wifiManagerSetupStopped st.

(** What the file system and the WiFi library answer at boot:
    the access-point name built from the chip id, the parsed
    [/config.json] when it exists and parses (a lookup from key to value),
    and whether [autoConnect] had to open the portal. *)
Record BootEnv := mkBootEnv {
  apName : string;
  configJson : option (string -> option string);
  autoConnectOpensPortal : bool;
  bootS1Low : bool;
  bootS2Low : bool;
  bootMillis : Z
}.

(** The [onDemand] argument of [startWifiManager]; the boot-time call
    ([false]) carries what it reads from the environment. *)
Inductive OnDemand :=
| OnDemandTrue
| OnDemandFalse (env : BootEnv).

Definition jsonStr (json : string -> option string) (key old : string) : string :=
  match json key with
  | Some v => if (0 <? Z.of_nat (String.length v)) then v else old
  | None => old
  end.

Definition jsonFlag (json : string -> option string) (key : string) (old : bool) : bool :=
  match json key with
  | Some v => if (0 <? Z.of_nat (String.length v)) then strcmp0 "true" v else old
  | None => old
  end.

Definition readConfig (env : BootEnv) (st : State) : State :=
  let named :=
    mkConfig (mqttServer st) (mqttPort st) (apName env) (mqttUser st)
      (mqttPassword st) (mqttOutTopic1 st) (mqttInTopic1 st)
      (mqttOutTopic2 st) (mqttInTopic2 st)
      (swapRelays st) (invertSwitch st) (respectSwitchState st) in
  match configJson env with
  | Some json =>
      with_config
        (mkConfig
           (jsonStr json "mqtt_server" (mqttServer named))
           (jsonStr json "mqtt_port" (mqttPort named))
           (jsonStr json "mqtt_client_name" (mqttClientName named))
           (jsonStr json "mqtt_user" (mqttUser named))
           (jsonStr json "mqtt_password" (mqttPassword named))
           (jsonStr json "mqtt_out_topic1" (mqttOutTopic1 named))
           (jsonStr json "mqtt_in_topic1" (mqttInTopic1 named))
           (jsonStr json "mqtt_out_topic2" (mqttOutTopic2 named))
           (jsonStr json "mqtt_in_topic2" (mqttInTopic2 named))
           (jsonFlag json "swap_relays" (swapRelays named))
           (jsonFlag json "invert_switch" (invertSwitch named))
           (jsonFlag json "respect_switch_state" (respectSwitchState named)))
        st
  | None => with_config named st
  end.

(** [wifiManager.startConfigPortal]: the library opens the access point
    and calls the registered AP callback. *)
Definition startConfigPortal (st : State) : State :=
  wifiManagerSetupStarted (emit (EvStartConfigPortal (mqttClientName st)) st).

Definition startWifiManager (onDemand : OnDemand) (st : State) : State :=
  if wifiManagerSetupRunning st then st
  else
    match onDemand with
    | OnDemandTrue => startConfigPortal st
    | OnDemandFalse env =>
        let st := readConfig env st in
        if autoConnectOpensPortal env then startConfigPortal st else st
    end.

(** ** Input Sampler, Relay Decision Engine, Setup-Gesture Detector *)

(** One switch line is sampled ([low] is [digitalRead(..) == LOW]); the
    result is the edge flag and the state with the new switch state. *)
Definition sampleS1 (low : bool) (st : State) : bool * State :=
  if low then
    ((if Bool.eqb (s1State st) false then true else false), set_s1State true st)
  else
    ((if Bool.eqb (s1State st) true then true else false), set_s1State false st).

Definition sampleS2 (low : bool) (st : State) : bool * State :=
  if low then
    ((if Bool.eqb (s2State st) false then true else false), set_s2State true st)
  else
    ((if Bool.eqb (s2State st) true then true else false), set_s2State false st).

(** The body of [if (s1Changed)]. *)
Definition s1ChangedAction (st : State) : State :=
  if respectSwitchState st then
    if swapRelays st then
      if invertSwitch st then
        (if s1State st then disableL2 st else enableL2 st)
      else
        (if s1State st then enableL2 st else disableL2 st)
    else
      if invertSwitch st then
        (if s1State st then disableL1 st else enableL1 st)
      else
        (if s1State st then enableL1 st else disableL1 st)
  else
    if swapRelays st then
      (if l2State st then disableL2 st else enableL2 st)
    else
      (if l1State st then disableL1 st else enableL1 st).

(** The body of [if (s2Changed)]. *)
Definition s2ChangedAction (st : State) : State :=
  if respectSwitchState st then
    if swapRelays st then
      if invertSwitch st then
        (if s2State st then disableL1 st else enableL1 st)
      else
        (if s2State st then enableL1 st else disableL1 st)
    else
      if invertSwitch st then
        (if s2State st then disableL2 st else enableL2 st)
      else
        (if s2State st then enableL2 st else disableL2 st)
  else
    if swapRelays st then
      (if l1State st then disableL1 st else enableL1 st)
    else
      (if l2State st then disableL2 st else enableL2 st).

(** The body of [if (s1Changed || s2Changed)]. *)
Definition manualSetup (st : State) : State :=
  let manualSetupActivatorDelay := usub (millis st) (manualSetupActivatorTime st) in
  let st :=
    if manualSetupActivatorDelay <? MANUAL_SETUP_MAX_DELAY_MS then
      let st := set_manualSetupModeCounter
                  (int_wrap (manualSetupModeCounter st + 1)) st in
      if manualSetupModeCounter st =? MANUAL_SETUP_COUNTER then
        startWifiManager OnDemandTrue st
      else st
    else set_manualSetupModeCounter 0 st in
  set_manualSetupActivatorTime (millis st) st.

Definition gpioLoop (buttonLow s1Low s2Low : bool) (st : State) : State :=
  let st := if buttonLow then startWifiManager OnDemandTrue st else st in
  let '(s1Changed, st) := sampleS1 s1Low st in
  let '(s2Changed, st) := sampleS2 s2Low st in
  let st := if s1Changed then s1ChangedAction st else st in
  let st := if s2Changed then s2ChangedAction st else st in
  if s1Changed || s2Changed then manualSetup st else st.

(** ** Portal servicing and connectivity tracking *)

(** [wifiManager.process()] serves the portal; when the form is saved in
    this cycle ([saved]) the library calls [saveParamsCallback].
    [wifiUp] is [WiFi.status() == WL_CONNECTED]. *)
Definition wifimanagerLoop (saved : option PortalParams) (wifiUp : bool)
    (st : State) : State :=
  let st := match saved with
            | Some p => saveParamsCallback p st
            | None => st
            end in
  let st :=
    if wifiManagerSetupRunning st then
      if usub (millis st) (wifiManagerSetupStart st) >? CONFIG_TIMEOUT_MS then
        wifiManagerSetupStopped (emit EvStopConfigPortal st)
      else st
    else st in
  if wifiUp then
    let st := if offline st
              then emit (EvSetServer (mqttServer st) (mqttPort st)) st
              else st in
    set_offline false st
  else set_offline true st.

(** ** Command Dispatcher *)

(** The command string: at most nine bytes of the payload are copied
    into [payloadCopy], a NUL is put after them, and the buffer is read
    as a C string. *)
Definition payloadCommand (payload : list ascii) : string :=
  let _length := Z.min (Z.of_nat (List.length payload)) 9 in
  cstr (firstn (Z.to_nat _length) payload ++ [NUL]).

Definition mqttCallback (topic : string) (payload : list ascii)
    (st : State) : State :=
  let cmd := payloadCommand payload in
  let st := if startsWith cmd CMD_SETUP
            then startWifiManager OnDemandTrue st else st in
  let st := if startsWith cmd CMD_RESET then set_restart true st else st in
  let st :=
    if startsWith cmd CMD_OTA then
      let st := set_otaStart (millis st) st in
      let st := set_otaRunning true st in
      let st := attach_ledTicker 300 st in
      emit EvOtaBegin st
    else st in
  if strcmp0 topic (mqttInTopic1 st) then
    let st := if startsWith cmd CMD_ON then enableL1 st else st in
    if startsWith cmd CMD_OFF then disableL1 st else st
  else if strcmp0 topic (mqttInTopic2 st) then
    let st := if startsWith cmd CMD_ON then enableL2 st else st in
    if startsWith cmd CMD_OFF then disableL2 st else st
  else st.

(** ** Broker Connection Manager *)

(** [connectOk] is the answer of [mqttClient.connect] should it be
    called. *)
Definition mqttReconnect (connectOk : bool) (st : State) : bool * State :=
  if negb (mqttConnected st) then
    if usub (millis st) (mqttConnectAttempt st) >? mqttConnectDelay st then
      let st := set_mqttConnectDelay (uadd (mqttConnectDelay st) 1000) st in
      let st := if mqttConnectDelay st >? 60000
                then set_mqttConnectDelay 60000 st else st in
      let st := set_mqttConnectAttempt (millis st) st in
      let st := emit (EvConnect (mqttClientName st) (mqttUser st)
                        (mqttPassword st) connectOk) st in
      let st := set_mqttConnected connectOk st in
      if connectOk then
        let st := emit (EvSubscribe (mqttInTopic1 st)) st in
        let st := emit (EvSubscribe (mqttInTopic2 st)) st in
        let st := set_mqttConnectDelay 0 st in
        (true, st)
      else (false, st)
    else (false, st)
  else (false, st).

(** [mqttClient.loop()] hands each message that arrived to the callback. *)
Definition clientLoop (inbox : list (string * list ascii)) (st : State) : State :=
  fold_left (fun st m => mqttCallback (fst m) (snd m) st) inbox st.

Definition mqttLoop (connectOk : bool) (inbox : list (string * list ascii))
    (st : State) : State :=
  if negb (mqttConnected st) then
    let '(ok, st) := mqttReconnect connectOk st in
    if negb ok then st else clientLoop inbox st
  else clientLoop inbox st.

(** ** Mode Controller *)

(** What the outside world supplies in one control cycle. *)
Record Input := mkInput {
  elapsed : Z;
  linkLost : bool;
  buttonLow : bool;
  s1Low : bool;
  s2Low : bool;
  portalSaved : option PortalParams;
  wifiUp : bool;
  connectOk : bool;
  inbox : list (string * list ascii)
}.

Definition delay (ms : Z) (st : State) : State :=
  with_clock (uadd (clock st) ms) st.

(** [loop()]; the boolean tells whether [ESP.restart()] was called. *)
Definition loop (inp : Input) (st : State) : State * bool :=
  let st :=
    if otaRunning st then
      let st := emit EvOtaHandle st in
      if usub (millis st) (otaStart st) >? OTA_TIMEOUT_MS
      then set_restart true st else st
    else
      let st := gpioLoop (buttonLow inp) (s1Low inp) (s2Low inp) st in
      let st := wifimanagerLoop (portalSaved inp) (wifiUp inp) st in
      let st := if negb (offline st)
                then mqttLoop (connectOk inp) (inbox inp) st else st in
      delay LOOP_DELAY_MS st in
  (st, restart st).

(** Between two cycles time passes and the broker link may drop. *)
Definition arrive (inp : Input) (st : State) : State :=
  let st := with_clock (uadd (clock st) (elapsed inp)) st in
  if linkLost inp then set_mqttConnected false st else st.

Definition cycle (inp : Input) (st : State) : State * bool :=
  loop inp (arrive inp st).

(** The globals as initialised at power-on. *)
Definition powerOn : State :=
  mkState
    (mkConfig "TiffanyAching.local" "1883" "" "moist" "password"
       "ibnhouse/light/kitchen/sta1" "ibnhouse/light/kitchen/cmd1"
       "ibnhouse/light/kitchen/sta2" "ibnhouse/light/kitchen/cmd2"
       false false true)
    (mkGpio false false false false false false)
    (mkGesture 0 0)
    (mkMode false 0 false 0 false None)
    (mkMqtt true false 0 0)
    0 [].

Definition setup (env : BootEnv) (st : State) : State :=
  let st := with_clock (ulong (bootMillis env)) st in
  let st := set_s1State (bootS1Low env) st in
  let st := set_s2State (bootS2Low env) st in
  let st := set_manualSetupModeCounter 0 st in
  startWifiManager (OnDemandFalse env) st.

Definition boot (env : BootEnv) : State := setup env powerOn.

(** States of the running control loop: the boot state, and the state
    after each cycle that follows a cycle which did not restart. *)
Inductive reachable : State -> Prop :=
| reachable_boot : forall env, reachable (boot env)
| reachable_cycle : forall st inp,
    reachable st -> restart st = false -> reachable (fst (cycle inp st)).

(** ** Vocabulary of the specification *)

(** A channel names a switch, a relay, or a pair of topics. *)
Inductive Channel := Ch1 | Ch2.

Definition other (c : Channel) : Channel :=
  match c with Ch1 => Ch2 | Ch2 => Ch1 end.

Definition relayState (r : Channel) (st : State) : bool :=
  match r with Ch1 => l1State st | Ch2 => l2State st end.

Definition relayPin (r : Channel) (st : State) : bool :=
  match r with Ch1 => pinRELAY_L1 st | Ch2 => pinRELAY_L2 st end.

Definition switchState (s : Channel) (st : State) : bool :=
  match s with Ch1 => s1State st | Ch2 => s2State st end.

Definition outTopic (r : Channel) (st : State) : string :=
  match r with Ch1 => mqttOutTopic1 st | Ch2 => mqttOutTopic2 st end.

Definition inTopic (r : Channel) (st : State) : string :=
  match r with Ch1 => mqttInTopic1 st | Ch2 => mqttInTopic2 st end.

(** The swap mapping: straight when [swapRelays] is off, crossed when on.
    It maps a switch to its relay and a relay to its switch. *)
Definition mapped (c : Channel) (st : State) : Channel :=
  if swapRelays st then other c else c.

(** The [l1Report] argument of [mqttCommunicate] for a relay. *)
Definition l1ReportOf (r : Channel) : bool :=
  match r with Ch1 => true | Ch2 => false end.

(** A sampled level is an edge when it differs from the stored state. *)
Definition isEdge (s : Channel) (low : bool) (st : State) : bool :=
  negb (Bool.eqb low (switchState s st)).

(** The bus is usable when the device is online and the client connected. *)
Definition busUp (st : State) : bool := negb (offline st) && mqttConnected st.

Definition isPublish (e : Event) : bool :=
  match e with EvPublish _ _ _ => true | _ => false end.
Definition isPortalStart (e : Event) : bool :=
  match e with EvStartConfigPortal _ => true | _ => false end.

Definition publications (st : State) : list Event := filter isPublish (events st).
Definition portalEntries (st : State) : nat :=
  List.length (filter isPortalStart (events st)).

(** ** Definitions used by the statements *)

(** The decision taken for an edge on switch [s], as the policy table
    gives it: the new energized state of the relay the switch is mapped
    to. *)
Definition decided (s : Channel) (st : State) : bool :=
  if respectSwitchState st
  then xorb (switchState s st) (invertSwitch st)
  else negb (relayState (mapped s st) st).

(** The five tests of the dispatcher on one command string. *)
Definition commandTests (cmd : string) : bool * bool * bool * bool * bool :=
  (startsWith cmd CMD_ON, startsWith cmd CMD_OFF, startsWith cmd CMD_SETUP,
   startsWith cmd CMD_OTA, startsWith cmd CMD_RESET).

(** Entering update mode, as the dispatcher does it. *)
Definition otaEnter (st : State) : State :=
  emit EvOtaBegin
    (attach_ledTicker 300 (set_otaRunning true (set_otaStart (millis st) st))).

(** No character of [s] is NUL. *)
Fixpoint noNul (s : string) : bool :=
  match s with
  | EmptyString => true
  | String c rest => negb (Ascii.eqb c NUL) && noNul rest
  end.

(** The status text for a relay that is energized or not and whose
    switch is stored as pressed or not, under the inversion flag. *)
Definition statusText (energized pressed invert : bool) : string :=
  String (if energized then "1"%char else "0"%char)
    (if xorb pressed invert then "." else "").

(** The relay operation of the sketch for a channel and a target state:
    one of [enableL1], [disableL1], [enableL2], [disableL2]. *)
Definition relayOp (r : Channel) (on : bool) : State -> State :=
  match r, on with
  | Ch1, true => enableL1
  | Ch1, false => disableL1
  | Ch2, true => enableL2
  | Ch2, false => disableL2
  end.

(** The gesture block calls [startWifiManager(true)] exactly when the gap
    is short and the incremented counter equals the threshold. *)
Definition gestureFires (st : State) : bool :=
  (usub (millis st) (manualSetupActivatorTime st) <? MANUAL_SETUP_MAX_DELAY_MS)
  && (int_wrap (manualSetupModeCounter st + 1) =? MANUAL_SETUP_COUNTER).

(** One reconnection tick: time passes, the link may drop, and
    [mqttReconnect] runs. *)
Definition tick (inp : Input) (st : State) : State :=
  snd (mqttReconnect (connectOk inp) (arrive inp st)).

(** A sequence of ticks, oldest first. *)
Definition ticks (inps : list Input) (st : State) : State :=
  fold_left (fun s i => tick i s) inps st.

(** The reconnect delay lies between 0 and 60 s. *)
Definition delayInRange (st : State) : Prop :=
  0 <= mqttConnectDelay st <= 60000.

(** The messages of a cycle reach the dispatcher when the device is not
    in update mode, WiFi is up, and the client is connected or connects
    in this cycle. *)
Definition delivers (inp : Input) (st : State) : bool :=
  negb (otaRunning st) && wifiUp inp
  && (mqttConnected st
      || (connectOk inp
          && (usub (millis st) (mqttConnectAttempt st) >? mqttConnectDelay st))).

(** *** Concrete inputs and states

    A boot with no stored configuration in which the library connects
    without opening the portal, one second after power-on. *)
Definition plainBoot : BootEnv :=
  mkBootEnv "Detritus-1a2b3c" None false false false 1000.

(** Switch 1 is flipped at time [t] (button released, switch 2 still). *)
Definition toggleS1At (t : Z) (st : State) : State :=
  gpioLoop false (negb (s1State st)) (s2State st) (with_clock t st).

(** Switch 1 is flipped at each of the times [ts], in order. *)
Definition edgesAt (ts : list Z) (st : State) : State :=
  fold_left (fun s t => toggleS1At t s) ts st.

(** No raised mode flag is lowered between [st] and [st']. *)
Definition flagsKept (st st' : State) : Prop :=
  (wifiManagerSetupRunning st = true -> wifiManagerSetupRunning st' = true)
  /\ (otaRunning st = true -> otaRunning st' = true)
  /\ (restart st = true -> restart st' = true).

(** A cycle that starts right after the previous one, with the button
    and both switch lines released, WiFi up and a broker that accepts
    the connection, in which the given messages arrive. *)
Definition quietInput (msgs : list (string * list ascii)) : Input :=
  mkInput 0 false false false false None true true msgs.

(** A boot that connects, a "set" command in the first cycle and an
    "ota" command in the second. *)
Definition setThenOta : State :=
  fst (cycle (quietInput [("ibnhouse/light/kitchen/cmd1",
                           list_ascii_of_string "ota")])
         (fst (cycle (quietInput [("ibnhouse/light/kitchen/cmd1",
                                   list_ascii_of_string "set")])
                 (boot plainBoot)))).

(** The device after a boot and one quiet cycle that connects. *)
Definition onlineState : State := fst (cycle (quietInput []) (boot plainBoot)).

(** Relay 1 energized and switch 1 pressed, bus up. *)
Definition pressedOn : State := set_l1State true (set_s1State true onlineState).

(** Both channels listening on one command topic. *)
Definition sharedTopicState : State :=
  with_config
    (mkConfig "broker.local" "1883" "Detritus-1a2b3c" "moist" "password"
       "house/sta1" "house/cmd" "house/sta2" "house/cmd" false false true)
    onlineState.

(** The payload bytes of a text. *)
Definition bytes (s : string) : list ascii := list_ascii_of_string s.

(** A tick five milliseconds after the previous one, whose connect
    attempt (if made) fails. *)
Definition failingTick : Input :=
  mkInput 5 false false false false None true false [].

(** ** Definitions used by the further properties *)

(** Every tick of the sequence makes a connect attempt and the attempt
    fails. *)
Fixpoint allAttemptsFail (inps : list Input) (st : State) : bool :=
  match inps with
  | [] => true
  | i :: rest =>
      let st0 := arrive i st in
      negb (mqttConnected st0)
      && (usub (millis st0) (mqttConnectAttempt st0) >? mqttConnectDelay st0)
      && negb (connectOk i)
      && allAttemptsFail rest (tick i st)
  end.

Definition isConnect (e : Event) : bool :=
  match e with EvConnect _ _ _ _ => true | _ => false end.

(** The portal opened by a "set" command right after a boot that
    connected. *)
Definition portalOpen : State :=
  fst (cycle (quietInput [("ibnhouse/light/kitchen/cmd1", bytes "set")])
         (boot plainBoot)).





(** The same cycle with nothing in the inbox. *)
Definition withoutMessages (inp : Input) : Input :=
  mkInput (elapsed inp) (linkLost inp) (buttonLow inp) (s1Low inp) (s2Low inp)
    (portalSaved inp) (wifiUp inp) (connectOk inp) [].

(** Each relay pin is at the level of its state variable. *)
Definition pinsMatch (st : State) : Prop :=
  pinRELAY_L1 st = l1State st /\ pinRELAY_L2 st = l2State st.

(** The portal was opened once if it is running and never otherwise. *)
Definition portalOnce (st : State) : Prop :=
  portalEntries st = if wifiManagerSetupRunning st then 1%nat else 0%nat.

(** A publication is retained and carries one of the four status texts. *)
Definition wellFormedEvent (e : Event) : Prop :=
  match e with
  | EvPublish _ payload retained =>
      retained = true
      /\ (payload = "0" \/ payload = "1" \/ payload = "0." \/ payload = "1.")
  | _ => True
  end.

(** What [gpioLoop] decides for switch [s] sampled at [low]. *)
Definition decision (s : Channel) (low : bool) (st : State) : bool :=
  if respectSwitchState st then xorb low (invertSwitch st)
  else negb (relayState (mapped s st) st).

(** What [gpioLoop] publishes for an edge of switch [s] sampled at [low]. *)
Definition edgeReport (s : Channel) (low : bool) (st : State) : list Event :=
  if isEdge s low st && busUp st then
    [EvPublish (outTopic (mapped s st) st)
       (statusText (decision s low st) low (invertSwitch st)) true]
  else [].

(** The sampled level of switch [s] in a pass. *)
Definition levelOf (s : Channel) (s1 s2 : bool) : bool :=
  match s with Ch1 => s1 | Ch2 => s2 end.


(** * Properties *)

(** ** Frame lemmas: what each operation leaves alone *)

Lemma mqttCommunicate_frame (b : bool) (st : State) :
  config (mqttCommunicate b st) = config st
  /\ gpio (mqttCommunicate b st) = gpio st
  /\ gesture (mqttCommunicate b st) = gesture st
  /\ mode (mqttCommunicate b st) = mode st
  /\ mqtt (mqttCommunicate b st) = mqtt st
  /\ clock (mqttCommunicate b st) = clock st.
Proof.
  unfold mqttCommunicate.
  destruct (negb (offline st) && mqttConnected st), b; cbn; repeat split.
Qed.

Lemma startWifiManager_onDemand_frame (st : State) :
  config (startWifiManager OnDemandTrue st) = config st
  /\ gpio (startWifiManager OnDemandTrue st) = gpio st
  /\ gesture (startWifiManager OnDemandTrue st) = gesture st
  /\ mqtt (startWifiManager OnDemandTrue st) = mqtt st
  /\ clock (startWifiManager OnDemandTrue st) = clock st
  /\ otaRunning (startWifiManager OnDemandTrue st) = otaRunning st
  /\ restart (startWifiManager OnDemandTrue st) = restart st.
Proof.
  unfold startWifiManager.
  destruct (wifiManagerSetupRunning st); cbn; repeat split.
Qed.

Lemma manualSetup_frame (st : State) :
  config (manualSetup st) = config st
  /\ gpio (manualSetup st) = gpio st
  /\ mqtt (manualSetup st) = mqtt st
  /\ clock (manualSetup st) = clock st
  /\ otaRunning (manualSetup st) = otaRunning st
  /\ restart (manualSetup st) = restart st.
Proof.
  unfold manualSetup.
  destruct (usub (millis st) (manualSetupActivatorTime st)
            <? MANUAL_SETUP_MAX_DELAY_MS); cbn -[Z.eqb int_wrap].
  - match goal with |- context [if ?c then _ else _] => destruct c end.
    + destruct (startWifiManager_onDemand_frame
                  (set_manualSetupModeCounter
                     (int_wrap (manualSetupModeCounter st + 1)) st))
        as (Hc & Hg & _ & Hq & Ht & Ho & Hr).
      cbn in *. rewrite Hc, Hg, Hq, Ht, Ho, Hr. repeat split.
    + repeat split.
  - repeat split.
Qed.

(** ** Relay Decision Engine *)

(** What one relay operation does to the switch and relay variables. *)
Lemma enableL1_gpio (st : State) :
  gpio (enableL1 st)
  = mkGpio (s1State st) (s2State st) true (l2State st) true (pinRELAY_L2 st)
  /\ config (enableL1 st) = config st.
Proof.
  unfold enableL1.
  destruct (mqttCommunicate_frame true (set_l1State true (write_RELAY_L1 true st)))
    as (Hc & Hg & _).
  rewrite Hc, Hg. split; reflexivity.
Qed.

Lemma disableL1_gpio (st : State) :
  gpio (disableL1 st)
  = mkGpio (s1State st) (s2State st) false (l2State st) false (pinRELAY_L2 st)
  /\ config (disableL1 st) = config st.
Proof.
  unfold disableL1.
  destruct (mqttCommunicate_frame true (set_l1State false (write_RELAY_L1 false st)))
    as (Hc & Hg & _).
  rewrite Hc, Hg. split; reflexivity.
Qed.

Lemma enableL2_gpio (st : State) :
  gpio (enableL2 st)
  = mkGpio (s1State st) (s2State st) (l1State st) true (pinRELAY_L1 st) true
  /\ config (enableL2 st) = config st.
Proof.
  unfold enableL2.
  destruct (mqttCommunicate_frame false (set_l2State true (write_RELAY_L2 true st)))
    as (Hc & Hg & _).
  rewrite Hc, Hg. split; reflexivity.
Qed.

Lemma disableL2_gpio (st : State) :
  gpio (disableL2 st)
  = mkGpio (s1State st) (s2State st) (l1State st) false (pinRELAY_L1 st) false
  /\ config (disableL2 st) = config st.
Proof.
  unfold disableL2.
  destruct (mqttCommunicate_frame false (set_l2State false (write_RELAY_L2 false st)))
    as (Hc & Hg & _).
  rewrite Hc, Hg. split; reflexivity.
Qed.

Ltac relay_ops :=
  repeat match goal with
    | |- context [enableL1 ?s] =>
        let H1 := fresh in let H2 := fresh in
        destruct (enableL1_gpio s) as [H1 H2]; rewrite ?H1, ?H2; clear H1 H2
    | |- context [disableL1 ?s] =>
        let H1 := fresh in let H2 := fresh in
        destruct (disableL1_gpio s) as [H1 H2]; rewrite ?H1, ?H2; clear H1 H2
    | |- context [enableL2 ?s] =>
        let H1 := fresh in let H2 := fresh in
        destruct (enableL2_gpio s) as [H1 H2]; rewrite ?H1, ?H2; clear H1 H2
    | |- context [disableL2 ?s] =>
        let H1 := fresh in let H2 := fresh in
        destruct (disableL2_gpio s) as [H1 H2]; rewrite ?H1, ?H2; clear H1 H2
    end.

Lemma s1ChangedAction_gpio (st : State) :
  gpio (s1ChangedAction st)
  = (if swapRelays st
     then mkGpio (s1State st) (s2State st) (l1State st) (decided Ch1 st)
            (pinRELAY_L1 st) (decided Ch1 st)
     else mkGpio (s1State st) (s2State st) (decided Ch1 st) (l2State st)
            (decided Ch1 st) (pinRELAY_L2 st)).
Proof.
  unfold s1ChangedAction, decided, mapped, relayState, switchState.
  destruct (respectSwitchState st), (swapRelays st), (invertSwitch st),
    (s1State st) eqn:E1, (l1State st) eqn:E2, (l2State st) eqn:E3;
    cbn; relay_ops; rewrite ?E1, ?E2, ?E3; reflexivity.
Qed.

Lemma s2ChangedAction_gpio (st : State) :
  gpio (s2ChangedAction st)
  = (if swapRelays st
     then mkGpio (s1State st) (s2State st) (decided Ch2 st) (l2State st)
            (decided Ch2 st) (pinRELAY_L2 st)
     else mkGpio (s1State st) (s2State st) (l1State st) (decided Ch2 st)
            (pinRELAY_L1 st) (decided Ch2 st)).
Proof.
  unfold s2ChangedAction, decided, mapped, relayState, switchState.
  destruct (respectSwitchState st), (swapRelays st), (invertSwitch st),
    (s2State st) eqn:E1, (l1State st) eqn:E2, (l2State st) eqn:E3;
    cbn; relay_ops; rewrite ?E1, ?E2, ?E3; reflexivity.
Qed.

Lemma s1ChangedAction_config (st : State) :
  config (s1ChangedAction st) = config st.
Proof.
  unfold s1ChangedAction.
  destruct (respectSwitchState st), (swapRelays st), (invertSwitch st),
    (s1State st), (l1State st), (l2State st); relay_ops; reflexivity.
Qed.

Lemma s2ChangedAction_config (st : State) :
  config (s2ChangedAction st) = config st.
Proof.
  unfold s2ChangedAction.
  destruct (respectSwitchState st), (swapRelays st), (invertSwitch st),
    (s2State st), (l1State st), (l2State st); relay_ops; reflexivity.
Qed.

Lemma manualSetup_config (st : State) : config (manualSetup st) = config st.
Proof. apply manualSetup_frame. Qed.

Lemma manualSetup_gpio (st : State) : gpio (manualSetup st) = gpio st.
Proof. apply manualSetup_frame. Qed.

(** [gpioLoop] written out: the button only concerns the portal, the two
    lines are sampled, and the three conditional blocks follow. *)
Lemma gpioLoop_unfold (bl s1 s2 : bool) (st : State) :
  gpioLoop bl s1 s2 st =
    let st0 := if bl then startWifiManager OnDemandTrue st else st in
    let st2 := set_s2State s2 (set_s1State s1 st0) in
    let c1 := isEdge Ch1 s1 st in
    let c2 := isEdge Ch2 s2 st in
    let st3 := if c1 then s1ChangedAction st2 else st2 in
    let st4 := if c2 then s2ChangedAction st3 else st3 in
    if c1 || c2 then manualSetup st4 else st4.
Proof.
  assert (Hg : gpio (if bl then startWifiManager OnDemandTrue st else st) = gpio st).
  { destruct bl; [|reflexivity]. apply startWifiManager_onDemand_frame. }
  unfold gpioLoop, sampleS1, sampleS2, isEdge, switchState.
  set (st0 := if bl then startWifiManager OnDemandTrue st else st) in *.
  assert (E1 : s1State st0 = s1State st) by (rewrite Hg; reflexivity).
  assert (E2 : s2State st0 = s2State st) by (rewrite Hg; reflexivity).
  destruct s1, s2; cbn -[s1ChangedAction s2ChangedAction manualSetup];
    rewrite ?E1, ?E2;
    destruct (s1State st), (s2State st); reflexivity.
Qed.

Lemma button_frame (bl : bool) (st : State) :
  let st0 := if bl then startWifiManager OnDemandTrue st else st in
  config st0 = config st /\ gpio st0 = gpio st /\ mqtt st0 = mqtt st
  /\ clock st0 = clock st.
Proof.
  destruct bl; cbv zeta; [|repeat split].
  destruct (startWifiManager_onDemand_frame st) as (? & ? & _ & ? & ? & _).
  repeat split; assumption.
Qed.

(** C1.  Whatever the three policy flags, the button and the other
    switch do, one pass of [gpioLoop] leaves the policy alone, stores the
    sampled level of switch [s], and settles the relay that [s] is mapped
    to (crossed when [swapRelays] is set): on an edge of [s] with
    [respectSwitchState] set, the relay mirrors the new pressed state,
    flipped by [invertSwitch] (pressed de-energizes when inversion is on
    and energizes when it is off); on an edge with [respectSwitchState]
    clear, the relay is toggled whatever level the switch moved to;
    without an edge the relay keeps its state.  On an edge the relay pin
    is driven to the new state. *)
Theorem relay_decision_engine (bl s1 s2 : bool) (st : State) (s : Channel) :
  let low := match s with Ch1 => s1 | Ch2 => s2 end in
  let r := mapped s st in
  let st' := gpioLoop bl s1 s2 st in
  config st' = config st
  /\ switchState s st' = low
  /\ relayState r st' =
       (if isEdge s low st then
          if respectSwitchState st then xorb low (invertSwitch st)
          else negb (relayState r st)
        else relayState r st)
  /\ relayPin r st' = (if isEdge s low st then relayState r st' else relayPin r st).
Proof.
  intros low r st'. subst st' r low.
  rewrite gpioLoop_unfold. cbv zeta.
  destruct (button_frame bl st) as (Hc & Hg & _). cbv zeta in Hc, Hg.
  set (st0 := if bl then startWifiManager OnDemandTrue st else st) in *.
  assert (Hc2 : config (set_s2State s2 (set_s1State s1 st0)) = config st)
    by (cbn; exact Hc).
  assert (Hg2 : gpio (set_s2State s2 (set_s1State s1 st0))
                = mkGpio s1 s2 (l1State st) (l2State st)
                    (pinRELAY_L1 st) (pinRELAY_L2 st))
    by (cbn; rewrite Hg; reflexivity).
  set (st2 := set_s2State s2 (set_s1State s1 st0)) in *. clearbody st2.
  unfold relayState, relayPin, switchState, mapped.
  destruct (isEdge Ch1 s1 st) eqn:E1, (isEdge Ch2 s2 st) eqn:E2; cbn [orb];
    rewrite ?manualSetup_config, ?manualSetup_gpio,
      ?s2ChangedAction_config, ?s2ChangedAction_gpio,
      ?s1ChangedAction_config, ?s1ChangedAction_gpio, ?Hc2, ?Hg2.
  all: unfold decided, mapped, relayState, switchState;
    rewrite ?s1ChangedAction_config, ?s1ChangedAction_gpio, ?Hc2, ?Hg2;
    unfold decided, mapped, relayState, switchState; rewrite ?Hc2, ?Hg2;
    unfold isEdge, switchState in E1, E2;
    destruct s, (swapRelays st) eqn:Es; cbn; rewrite ?Es; cbn;
    unfold isEdge, switchState; rewrite ?E1, ?E2; cbn;
    destruct (respectSwitchState st); cbn; repeat split.
Qed.

(** ** Command Dispatcher *)

Lemma startsWith_cons (a b : ascii) (s p : string) :
  startsWith (String a s) (String b p)
  = if Ascii.eqb b a then startsWith s p else false.
Proof.
  unfold startsWith; cbn.
  destruct (ascii_dec b a) as [->|N].
  - now rewrite Ascii.eqb_refl.
  - destruct (Ascii.eqb_spec b a); [contradiction|reflexivity].
Qed.

Lemma startsWith_nil (s : string) : startsWith s "" = true.
Proof. destruct s; reflexivity. Qed.

(** The five prefixes start with different characters: at most one test
    succeeds. *)
Lemma commandTests_cases (cmd : string) :
  commandTests cmd = (true, false, false, false, false)
  \/ commandTests cmd = (false, true, false, false, false)
  \/ commandTests cmd = (false, false, true, false, false)
  \/ commandTests cmd = (false, false, false, true, false)
  \/ commandTests cmd = (false, false, false, false, true)
  \/ commandTests cmd = (false, false, false, false, false).
Proof.
  unfold commandTests, CMD_ON, CMD_OFF, CMD_SETUP, CMD_OTA, CMD_RESET.
  destruct cmd as [|a s]; [now repeat right|].
  rewrite !startsWith_cons, !startsWith_nil.
  destruct (Ascii.eqb_spec "1" a) as [<-|]; [now left|].
  destruct (Ascii.eqb_spec "0" a) as [<-|]; [now right; left|].
  destruct (Ascii.eqb_spec "s" a) as [<-|].
  { cbn [Ascii.eqb Bool.eqb]. destruct (startsWith s "et"); tauto. }
  destruct (Ascii.eqb_spec "o" a) as [<-|].
  { cbn [Ascii.eqb Bool.eqb]. destruct (startsWith s "ta"); tauto. }
  destruct (Ascii.eqb_spec "r" a) as [<-|].
  { destruct (startsWith s "st"); tauto. }
  now repeat right.
Qed.

(** The dispatcher, one command at a time. *)
Lemma mqttCallback_cases (topic : string) (payload : list ascii) (st : State) :
  let cmd := payloadCommand payload in
  mqttCallback topic payload st =
    if startsWith cmd CMD_SETUP then startWifiManager OnDemandTrue st
    else if startsWith cmd CMD_RESET then set_restart true st
    else if startsWith cmd CMD_OTA then otaEnter st
    else if startsWith cmd CMD_ON then
      if strcmp0 topic (mqttInTopic1 st) then enableL1 st
      else if strcmp0 topic (mqttInTopic2 st) then enableL2 st else st
    else if startsWith cmd CMD_OFF then
      if strcmp0 topic (mqttInTopic1 st) then disableL1 st
      else if strcmp0 topic (mqttInTopic2 st) then disableL2 st else st
    else st.
Proof.
  intros cmd. unfold mqttCallback. fold cmd.
  destruct (commandTests_cases cmd) as [H|[H|[H|[H|[H|H]]]]];
    unfold commandTests in H; injection H as -> -> -> -> ->;
    cbv iota; cbv zeta; unfold otaEnter;
    repeat match goal with
      | |- context [strcmp0 ?a ?b] => destruct (strcmp0 a b)
      end; reflexivity.
Qed.

Lemma payloadCommand_firstn (payload : list ascii) :
  payloadCommand payload = cstr (firstn 9 payload ++ [NUL]).
Proof.
  unfold payloadCommand.
  destruct (Z.min_spec (Z.of_nat (List.length payload)) 9) as [[Hlt ->]|[Hge ->]].
  - rewrite Nat2Z.id, firstn_all, firstn_all2 by lia. reflexivity.
  - reflexivity.
Qed.

Lemma startsWith_cstr (c : string) :
  forall (n : nat) (p : list ascii),
    (String.length c <= n)%nat -> noNul c = true ->
    (startsWith (cstr (firstn n p ++ [NUL])) c = true
     <-> firstn (String.length c) p = list_ascii_of_string c).
Proof.
  induction c as [|x c IH]; intros n p Hn Hc.
  - rewrite startsWith_nil. cbn. tauto.
  - cbn in Hc. apply andb_prop in Hc as [Hx Hc].
    apply negb_true_iff in Hx.
    destruct n as [|n]; [cbn in Hn; lia|].
    destruct p as [|a p]; cbn [firstn app cstr String.length list_ascii_of_string].
    + rewrite Ascii.eqb_refl. cbn. split; discriminate.
    + destruct (Ascii.eqb a NUL) eqn:Ea.
      * split; [discriminate|].
        intros H. injection H as -> _. congruence.
      * rewrite startsWith_cons.
        destruct (Ascii.eqb_spec x a) as [->|N].
        -- rewrite (IH n p) by (cbn in Hn; lia || assumption).
           split; [intros ->; reflexivity|intros H; injection H; auto].
        -- split; [discriminate|]. intros H; injection H as -> _. contradiction.
Qed.

(** The dispatcher tests the raw payload: a word of the vocabulary is
    matched exactly when the payload begins with its bytes. *)
Lemma command_is_payload_prefix (c : string) (payload : list ascii) :
  In c [CMD_ON; CMD_OFF; CMD_SETUP; CMD_OTA; CMD_RESET] ->
  (startsWith (payloadCommand payload) c = true
   <-> firstn (String.length c) payload = list_ascii_of_string c).
Proof.
  intros H. rewrite payloadCommand_firstn.
  apply startsWith_cstr;
    cbn in H; decompose [or] H; subst; cbn; try lia; try reflexivity; contradiction.
Qed.

(** ** Status Publisher *)

Lemma mqttCommunicate_publishes (r : Channel) (st : State) :
  mqttCommunicate (l1ReportOf r) st =
    if busUp st then
      emit (EvPublish (outTopic r st)
              (statusText (relayState r st) (switchState (mapped r st) st)
                 (invertSwitch st)) true) st
    else st.
Proof.
  unfold mqttCommunicate, busUp, publish, statusText, mapped.
  destruct (negb (offline st) && mqttConnected st); [|reflexivity].
  destruct r; cbn [l1ReportOf relayState outTopic];
    destruct (swapRelays st), (invertSwitch st);
    cbn [other switchState];
    destruct (s1State st), (s2State st), (l1State st), (l2State st);
    reflexivity.
Qed.

Lemma mapped_involutive (c : Channel) (st : State) : mapped (mapped c st) st = c.
Proof. unfold mapped. destruct (swapRelays st), c; reflexivity. Qed.

(** C4.  The status message of channel [r] is what [mqttCommunicate]
    hands to the client when the bus is up (and nothing otherwise): one
    character, '1' when the relay of [r] is energized and '0' when not,
    followed by a single '.' exactly when the stored state of the switch
    that the swap mapping associates with [r] differs from
    [invertSwitch], so one or two characters in all.  The switch is the
    one the decision engine maps to [r].  With the relay energized and
    that switch pressed the text is "1." without inversion and "1" with
    it. *)
Theorem status_payload (r : Channel) (st : State) :
  let pressed := xorb (switchState (mapped r st) st) (invertSwitch st) in
  let text := ((if relayState r st then "1" else "0")
               ++ (if pressed then "." else ""))%string in
  mqttCommunicate (l1ReportOf r) st
  = (if busUp st then emit (EvPublish (outTopic r st) text true) st else st)
  /\ (1 <= String.length text <= 2)%nat
  /\ mapped (mapped r st) st = r
  /\ (relayState r st = true -> switchState (mapped r st) st = true ->
      text = if invertSwitch st then "1" else "1.").
Proof.
  intros pressed text. subst pressed text.
  split; [|split; [|split]].
  - rewrite mqttCommunicate_publishes. unfold statusText.
    destruct (relayState r st); reflexivity.
  - destruct (relayState r st), (xorb _ _); cbn; lia.
  - apply mapped_involutive.
  - intros -> ->. destruct (invertSwitch st); reflexivity.
Qed.

(** ** Inbound on/off commands *)

Lemma relayOp_spec (r : Channel) (on : bool) (st : State) :
  let st' := relayOp r on st in
  config st' = config st /\ gesture st' = gesture st /\ mode st' = mode st
  /\ mqtt st' = mqtt st /\ clock st' = clock st
  /\ s1State st' = s1State st /\ s2State st' = s2State st
  /\ relayState r st' = on /\ relayPin r st' = on
  /\ relayState (other r) st' = relayState (other r) st
  /\ relayPin (other r) st' = relayPin (other r) st
  /\ events st' =
       events st ++
       (if busUp st then
          [EvPublish (outTopic r st)
             (statusText on (switchState (mapped r st) st) (invertSwitch st)) true]
        else []).
Proof.
  destruct r, on; cbn [relayOp];
    unfold enableL1, disableL1, enableL2, disableL2;
    [rewrite (mqttCommunicate_publishes Ch1)
    |rewrite (mqttCommunicate_publishes Ch1)
    |rewrite (mqttCommunicate_publishes Ch2)
    |rewrite (mqttCommunicate_publishes Ch2)];
    unfold busUp, mapped; cbn;
    destruct (negb (offline st) && mqttConnected st); cbn;
    rewrite ?app_nil_r; repeat split.
Qed.

Lemma strcmp0_eq (a b : string) : strcmp0 a b = true <-> a = b.
Proof. apply String.eqb_eq. Qed.

Lemma strcmp0_refl (a : string) : strcmp0 a a = true.
Proof. apply String.eqb_refl. Qed.

(** An on/off command goes to the first channel whose command topic is
    the topic of the message. *)
Lemma mqttCallback_onoff (on : bool) (topic : string) (payload : list ascii)
    (st : State) :
  startsWith (payloadCommand payload) (if on then CMD_ON else CMD_OFF) = true ->
  mqttCallback topic payload st =
    if strcmp0 topic (mqttInTopic1 st) then relayOp Ch1 on st
    else if strcmp0 topic (mqttInTopic2 st) then relayOp Ch2 on st
    else st.
Proof.
  intros H. rewrite mqttCallback_cases. cbv zeta.
  destruct (commandTests_cases (payloadCommand payload)) as [E|[E|[E|[E|[E|E]]]]];
    unfold commandTests in E; injection E as E1 E2 E3 E4 E5;
    rewrite ?E3, ?E5, ?E4, ?E1, ?E2; destruct on; cbn [relayOp];
    try reflexivity; congruence.
Qed.

(** C7.  With the bus up (as it is whenever a message is delivered), an
    on/off command on the command topic of channel [r] sets the relay of
    [r] to the commanded state whatever the policy flags and the former
    state are, and publishes the status of [r] once; the same command a
    second time leaves the relay in that state and publishes the same
    status once more, two publications in all. *)
Theorem command_twice (r : Channel) (on : bool) (payload : list ascii)
    (st : State) :
  busUp st = true ->
  startsWith (payloadCommand payload) (if on then CMD_ON else CMD_OFF) = true ->
  (r = Ch2 -> mqttInTopic1 st <> mqttInTopic2 st) ->
  let topic := inTopic r st in
  let st1 := mqttCallback topic payload st in
  let st2 := mqttCallback topic payload st1 in
  let msg := EvPublish (outTopic r st)
               (statusText on (switchState (mapped r st) st) (invertSwitch st))
               true in
  relayState r st1 = on /\ relayPin r st1 = on
  /\ relayState r st2 = on /\ relayPin r st2 = on
  /\ events st1 = events st ++ [msg]
  /\ events st2 = events st ++ [msg; msg]
  /\ config st2 = config st.
Proof.
  intros Hup Hcmd Hne topic st1 st2 msg.
  assert (Hstep : forall s : State,
             config s = config st -> mqttCallback topic payload s = relayOp r on s).
  { intros s Hs. rewrite (mqttCallback_onoff on) by exact Hcmd.
    rewrite Hs. subst topic. destruct r; cbn [inTopic].
    - now rewrite strcmp0_refl.
    - destruct (strcmp0 (mqttInTopic2 st) (mqttInTopic1 st)) eqn:E.
      + apply strcmp0_eq in E. exfalso. apply (Hne eq_refl). now symmetry.
      + now rewrite strcmp0_refl. }
  assert (E1 : st1 = relayOp r on st) by (apply Hstep; reflexivity).
  destruct (relayOp_spec r on st)
    as (Hc & _ & _ & Hq & _ & Hs1 & Hs2 & Hr & Hp & _ & _ & He).
  cbv zeta in *. rewrite <- E1 in *.
  assert (E2 : st2 = relayOp r on st1) by (apply Hstep; exact Hc).
  destruct (relayOp_spec r on st1)
    as (Hc' & _ & _ & _ & _ & _ & _ & Hr' & Hp' & _ & _ & He').
  cbv zeta in *. rewrite <- E2 in *.
  assert (Hup1 : busUp st1 = true) by (unfold busUp; rewrite Hq; exact Hup).
  rewrite Hup in He. rewrite Hup1 in He'.
  assert (Hmsg : EvPublish (outTopic r st1)
                   (statusText on (switchState (mapped r st1) st1) (invertSwitch st1))
                   true = msg).
  { subst msg. unfold outTopic, mapped, switchState.
    rewrite Hc, Hs1, Hs2. reflexivity. }
  rewrite Hmsg in He'.
  repeat split; try assumption.
  - rewrite He', He, <- app_assoc. reflexivity.
  - congruence.
Qed.

(** C10.  When both channels are configured with one and the same
    command topic, an on/off command on that topic is handled by the
    first branch of the topic test: it is the relay operation of channel
    1, so relay 1 takes the commanded state and its status is published
    (bus permitting), while the state and the pin of relay 2 stay as they
    were and nothing is published for channel 2. *)
Theorem shared_topic_reaches_channel1_only (on : bool) (payload : list ascii)
    (st : State) :
  mqttInTopic1 st = mqttInTopic2 st ->
  startsWith (payloadCommand payload) (if on then CMD_ON else CMD_OFF) = true ->
  let st' := mqttCallback (mqttInTopic2 st) payload st in
  st' = relayOp Ch1 on st
  /\ relayState Ch1 st' = on
  /\ relayState Ch2 st' = relayState Ch2 st
  /\ relayPin Ch2 st' = relayPin Ch2 st
  /\ events st' =
       events st ++
       (if busUp st then
          [EvPublish (mqttOutTopic1 st)
             (statusText on (switchState (mapped Ch1 st) st) (invertSwitch st))
             true]
        else []).
Proof.
  intros Hsame Hcmd st'.
  assert (E : st' = relayOp Ch1 on st).
  { subst st'. rewrite (mqttCallback_onoff on) by exact Hcmd.
    rewrite <- Hsame, strcmp0_refl. reflexivity. }
  destruct (relayOp_spec Ch1 on st)
    as (_ & _ & _ & _ & _ & _ & _ & Hr & _ & Ho & Hp & He).
  cbv zeta in *. rewrite <- E in *. cbn [other outTopic] in *.
  repeat split; assumption.
Qed.

(** C8.  The dispatcher, message by message.  The command is the
    payload cut after nine bytes and at the first NUL, and each word of
    the vocabulary is matched exactly when the payload begins with it.
    "set", "rst" and "ota" act in the same way whatever the topic is:
    the portal is requested, the restart flag is raised, update mode is
    entered.  "1" and "0" act only when the topic equals a configured
    command topic (string equality), through the relay operation of the
    first channel whose topic matches, which leaves the other relay
    alone; on any other topic they change nothing.  A payload that begins
    with none of the five words leaves the whole state, event log
    included, as it was. *)
Theorem dispatcher_spec (topic : string) (payload : list ascii) (st : State) :
  let cmd := payloadCommand payload in
  (forall c, In c [CMD_ON; CMD_OFF; CMD_SETUP; CMD_OTA; CMD_RESET] ->
     (startsWith cmd c = true
      <-> firstn (String.length c) payload = list_ascii_of_string c))
  /\ (startsWith cmd CMD_SETUP = true ->
      mqttCallback topic payload st = startWifiManager OnDemandTrue st)
  /\ (startsWith cmd CMD_RESET = true ->
      mqttCallback topic payload st = set_restart true st)
  /\ (startsWith cmd CMD_OTA = true ->
      mqttCallback topic payload st = otaEnter st)
  /\ (forall on : bool,
        startsWith cmd (if on then CMD_ON else CMD_OFF) = true ->
        (topic = mqttInTopic1 st ->
         mqttCallback topic payload st = relayOp Ch1 on st
         /\ relayState Ch2 (mqttCallback topic payload st) = relayState Ch2 st)
        /\ (topic <> mqttInTopic1 st -> topic = mqttInTopic2 st ->
            mqttCallback topic payload st = relayOp Ch2 on st
            /\ relayState Ch1 (mqttCallback topic payload st) = relayState Ch1 st)
        /\ (topic <> mqttInTopic1 st -> topic <> mqttInTopic2 st ->
            mqttCallback topic payload st = st))
  /\ (startsWith cmd CMD_ON = false -> startsWith cmd CMD_OFF = false ->
      startsWith cmd CMD_SETUP = false -> startsWith cmd CMD_OTA = false ->
      startsWith cmd CMD_RESET = false ->
      mqttCallback topic payload st = st).
Proof.
  intros cmd. subst cmd.
  split; [intros c Hc; now apply command_is_payload_prefix|].
  pose proof (mqttCallback_cases topic payload st) as Hcases. cbv zeta in Hcases.
  pose proof (commandTests_cases (payloadCommand payload)) as Hex.
  unfold commandTests in Hex.
  split; [|split; [|split; [|split]]].
  - intros H. rewrite Hcases, H. reflexivity.
  - intros H. rewrite Hcases.
    destruct Hex as [E|[E|[E|[E|[E|E]]]]]; injection E as E1 E2 E3 E4 E5;
      try congruence. rewrite E3, H. reflexivity.
  - intros H. rewrite Hcases.
    destruct Hex as [E|[E|[E|[E|[E|E]]]]]; injection E as E1 E2 E3 E4 E5;
      try congruence. rewrite E3, E5, H. reflexivity.
  - intros on H. rewrite (mqttCallback_onoff on) by assumption.
    split; [|split].
    + intros ->. rewrite strcmp0_refl. split; [reflexivity|].
      apply (relayOp_spec Ch1 on st).
    + intros N ->.
      destruct (strcmp0 _ (mqttInTopic1 st)) eqn:E;
        [apply strcmp0_eq in E; contradiction|].
      rewrite strcmp0_refl. split; [reflexivity|].
      apply (relayOp_spec Ch2 on st).
    + intros N1 N2.
      destruct (strcmp0 topic (mqttInTopic1 st)) eqn:E1;
        [apply strcmp0_eq in E1; contradiction|].
      destruct (strcmp0 topic (mqttInTopic2 st)) eqn:E2;
        [apply strcmp0_eq in E2; contradiction|].
      reflexivity.
  - intros H1 H2 H3 H4 H5. rewrite Hcases, H3, H5, H4, H1, H2. reflexivity.
Qed.

(** ** Publications and the state of the bus *)

Lemma s1ChangedAction_relayOp (st : State) :
  s1ChangedAction st = relayOp (mapped Ch1 st) (decided Ch1 st) st.
Proof.
  unfold s1ChangedAction, decided, mapped, relayState, switchState.
  destruct (respectSwitchState st), (swapRelays st), (invertSwitch st),
    (s1State st), (l1State st), (l2State st); reflexivity.
Qed.

Lemma s2ChangedAction_relayOp (st : State) :
  s2ChangedAction st = relayOp (mapped Ch2 st) (decided Ch2 st) st.
Proof.
  unfold s2ChangedAction, decided, mapped, relayState, switchState.
  destruct (respectSwitchState st), (swapRelays st), (invertSwitch st),
    (s2State st), (l1State st), (l2State st); reflexivity.
Qed.

Lemma startWifiManager_onDemand_events (st : State) :
  events (startWifiManager OnDemandTrue st) =
    events st ++
    (if wifiManagerSetupRunning st then []
     else [EvStartConfigPortal (mqttClientName st)]).
Proof.
  unfold startWifiManager. destruct (wifiManagerSetupRunning st); cbn.
  - now rewrite app_nil_r.
  - reflexivity.
Qed.

Lemma manualSetup_events (st : State) :
  events (manualSetup st) =
    events st ++
    (if gestureFires st && negb (wifiManagerSetupRunning st)
     then [EvStartConfigPortal (mqttClientName st)] else []).
Proof.
  unfold manualSetup, gestureFires.
  destruct (usub (millis st) (manualSetupActivatorTime st)
            <? MANUAL_SETUP_MAX_DELAY_MS); cbn -[Z.eqb int_wrap].
  - destruct (int_wrap (manualSetupModeCounter st + 1) =? MANUAL_SETUP_COUNTER);
      cbn -[Z.eqb int_wrap].
    + rewrite startWifiManager_onDemand_events. cbn.
      destruct (wifiManagerSetupRunning st); reflexivity.
    + now rewrite app_nil_r.
  - now rewrite app_nil_r.
Qed.

Lemma publications_app (st : State) (l : list Event) (st' : State) :
  events st' = events st ++ l ->
  publications st' = publications st ++ filter isPublish l.
Proof. unfold publications. intros ->. apply filter_app. Qed.

Lemma relayOp_bus_down (r : Channel) (on : bool) (st : State) :
  busUp st = false ->
  events (relayOp r on st) = events st /\ mqtt (relayOp r on st) = mqtt st.
Proof.
  intros H.
  destruct (relayOp_spec r on st) as (_ & _ & _ & Hq & _ & _ & _ & _ & _ & _ & _ & He).
  cbv zeta in *. rewrite H, app_nil_r in He. split; assumption.
Qed.

(** With the bus down the sampler and the decision engine publish
    nothing. *)
Lemma gpioLoop_bus_down (bl s1 s2 : bool) (st : State) :
  busUp st = false ->
  publications (gpioLoop bl s1 s2 st) = publications st
  /\ mqtt (gpioLoop bl s1 s2 st) = mqtt st.
Proof.
  intros Hdown. rewrite gpioLoop_unfold. cbv zeta.
  destruct (button_frame bl st) as (_ & _ & Hq & _). cbv zeta in Hq.
  assert (Hp0 : publications (if bl then startWifiManager OnDemandTrue st else st)
                = publications st).
  { destruct bl; [|reflexivity].
    rewrite (publications_app st _ _ (startWifiManager_onDemand_events st)).
    destruct (wifiManagerSetupRunning st); cbn; now rewrite app_nil_r. }
  set (st0 := if bl then startWifiManager OnDemandTrue st else st) in *.
  set (st2 := set_s2State s2 (set_s1State s1 st0)).
  assert (H2 : publications st2 = publications st /\ mqtt st2 = mqtt st)
    by (subst st2; cbn; split; assumption).
  set (st3 := if isEdge Ch1 s1 st then s1ChangedAction st2 else st2).
  assert (H3 : publications st3 = publications st /\ mqtt st3 = mqtt st).
  { subst st3. destruct (isEdge Ch1 s1 st); [|exact H2].
    rewrite s1ChangedAction_relayOp.
    destruct (relayOp_bus_down (mapped Ch1 st2) (decided Ch1 st2) st2) as [He Hm].
    { unfold busUp. rewrite (proj2 H2). exact Hdown. }
    unfold publications in *. rewrite He, Hm. exact H2. }
  set (st4 := if isEdge Ch2 s2 st then s2ChangedAction st3 else st3).
  assert (H4 : publications st4 = publications st /\ mqtt st4 = mqtt st).
  { subst st4. destruct (isEdge Ch2 s2 st); [|exact H3].
    rewrite s2ChangedAction_relayOp.
    destruct (relayOp_bus_down (mapped Ch2 st3) (decided Ch2 st3) st3) as [He Hm].
    { unfold busUp. rewrite (proj2 H3). exact Hdown. }
    unfold publications in *. rewrite He, Hm. exact H3. }
  destruct (isEdge Ch1 s1 st || isEdge Ch2 s2 st); [|exact H4].
  destruct (manualSetup_frame st4) as (_ & _ & Hm & _).
  rewrite (publications_app st4 _ _ (manualSetup_events st4)), Hm.
  destruct (gestureFires st4 && negb (wifiManagerSetupRunning st4)); cbn;
    rewrite app_nil_r; exact H4.
Qed.

(** A connection attempt, successful or not, appends the attempt and the
    subscriptions to the log and nothing else. *)
Lemma mqttReconnect_events (ok : bool) (st : State) :
  let attempt := negb (mqttConnected st)
                 && (usub (millis st) (mqttConnectAttempt st) >? mqttConnectDelay st) in
  events (snd (mqttReconnect ok st)) =
    events st ++
    (if attempt then
       EvConnect (mqttClientName st) (mqttUser st) (mqttPassword st) ok
       :: (if ok then [EvSubscribe (mqttInTopic1 st); EvSubscribe (mqttInTopic2 st)]
           else [])
     else []).
Proof.
  unfold mqttReconnect.
  destruct (mqttConnected st); cbn -[Z.gtb uadd]; [now rewrite app_nil_r|].
  destruct (usub (millis st) (mqttConnectAttempt st) >? mqttConnectDelay st);
    cbn -[Z.gtb uadd]; [|now rewrite app_nil_r].
  destruct (uadd (mqttConnectDelay st) 1000 >? 60000), ok; cbn;
    rewrite <- ?app_assoc; reflexivity.
Qed.

Lemma mqttReconnect_publications (ok : bool) (st : State) :
  publications (snd (mqttReconnect ok st)) = publications st.
Proof.
  rewrite (publications_app st _ _ (mqttReconnect_events ok st)). cbv zeta.
  destruct (negb (mqttConnected st) && _), ok; cbn; now rewrite app_nil_r.
Qed.

Lemma wifimanagerLoop_publications (saved : option PortalParams) (up : bool)
    (st : State) :
  publications (wifimanagerLoop saved up st) = publications st.
Proof.
  unfold wifimanagerLoop, publications.
  destruct saved as [p|]; cbn -[Z.gtb usub];
    repeat match goal with
      | |- context [if ?c then _ else _] => destruct c; cbn -[Z.gtb usub]
      end;
    rewrite ?filter_app; cbn; rewrite ?app_nil_r; reflexivity.
Qed.

Lemma gpioLoop_no_edge (bl s1 s2 : bool) (st : State) :
  isEdge Ch1 s1 st = false -> isEdge Ch2 s2 st = false ->
  publications (gpioLoop bl s1 s2 st) = publications st.
Proof.
  intros E1 E2. rewrite gpioLoop_unfold. cbv zeta. rewrite E1, E2. cbn.
  destruct bl; [|reflexivity].
  change (publications (startWifiManager OnDemandTrue st) = publications st).
  rewrite (publications_app st _ _ (startWifiManager_onDemand_events st)).
  destruct (wifiManagerSetupRunning st); cbn; now rewrite app_nil_r.
Qed.

(** A cycle without a switch edge and without an inbound message
    publishes nothing, whether or not it reconnects to the broker. *)
Lemma quiet_cycle_publishes_nothing (inp : Input) (st : State) :
  isEdge Ch1 (s1Low inp) st = false -> isEdge Ch2 (s2Low inp) st = false ->
  inbox inp = [] ->
  publications (fst (cycle inp st)) = publications st.
Proof.
  intros E1 E2 Hin. unfold cycle, loop. cbn [fst].
  set (st0 := arrive inp st).
  assert (H0 : publications st0 = publications st /\ gpio st0 = gpio st).
  { subst st0. unfold arrive. destruct (linkLost inp); split; reflexivity. }
  destruct H0 as [H0 Hg].
  assert (E1' : isEdge Ch1 (s1Low inp) st0 = false)
    by (unfold isEdge, switchState in *; rewrite Hg; exact E1).
  assert (E2' : isEdge Ch2 (s2Low inp) st0 = false)
    by (unfold isEdge, switchState in *; rewrite Hg; exact E2).
  clearbody st0.
  destruct (otaRunning st0).
  - destruct (usub _ _ >? OTA_TIMEOUT_MS);
      unfold publications in *; cbn; rewrite filter_app, H0; cbn;
      now rewrite app_nil_r.
  - change (publications
              (let st1 := wifimanagerLoop (portalSaved inp) (wifiUp inp)
                            (gpioLoop (buttonLow inp) (s1Low inp) (s2Low inp) st0) in
               if negb (offline st1)
               then mqttLoop (connectOk inp) (inbox inp) st1 else st1)
            = publications st).
    cbv zeta.
    set (st1 := wifimanagerLoop _ _ _).
    assert (H1 : publications st1 = publications st).
    { subst st1. rewrite wifimanagerLoop_publications, gpioLoop_no_edge; assumption. }
    destruct (negb (offline st1)); [|exact H1].
    unfold mqttLoop. rewrite Hin.
    pose proof (mqttReconnect_publications (connectOk inp) st1) as Hr.
    destruct (mqttConnected st1); cbn [negb]; [exact H1|].
    destruct (mqttReconnect (connectOk inp) st1) as [ok st2]. cbn [snd] in Hr.
    destruct ok; cbn; congruence.
Qed.

(** C9.  With the bus down (offline, or the client not connected) a relay
    operation still sets the relay variable and pin but appends nothing
    to the event log and touches no other variable, so nothing is kept
    for later; the sampler and decision engine publish nothing either.
    A connection attempt never publishes, and a later cycle that sees no
    switch edge and no inbound message publishes nothing even when it
    reconnects: the missed status is not replayed. *)
Theorem publication_dropped_when_bus_down (r : Channel) (on : bool) (st : State) :
  busUp st = false ->
  let st' := relayOp r on st in
  relayState r st' = on /\ relayPin r st' = on
  /\ events st' = events st
  /\ config st' = config st /\ gesture st' = gesture st /\ mode st' = mode st
  /\ mqtt st' = mqtt st /\ clock st' = clock st
  /\ (forall bl s1 s2, publications (gpioLoop bl s1 s2 st) = publications st)
  /\ (forall ok s, publications (snd (mqttReconnect ok s)) = publications s)
  /\ (forall inp s,
        isEdge Ch1 (s1Low inp) s = false -> isEdge Ch2 (s2Low inp) s = false ->
        inbox inp = [] ->
        publications (fst (cycle inp s)) = publications s).
Proof.
  intros Hdown st'.
  destruct (relayOp_spec r on st)
    as (Hc & Hge & Hm & Hq & Ht & _ & _ & Hr & Hp & _ & _ & He).
  cbv zeta in *. fold st' in Hc, Hge, Hm, Hq, Ht, Hr, Hp, He.
  rewrite Hdown, app_nil_r in He.
  repeat split; try assumption.
  - intros bl s1 s2. now apply gpioLoop_bus_down.
  - intros ok s. apply mqttReconnect_publications.
  - intros inp s. apply quiet_cycle_publishes_nothing.
Qed.

(** ** Broker Connection Manager *)

Lemma uadd_small (d : Z) : 0 <= d <= 60000 -> uadd d 1000 = d + 1000.
Proof.
  intros H. unfold uadd, ulong, ULONG_MOD. apply Z.mod_small.
  change (2 ^ 32) with 4294967296. lia.
Qed.

Lemma mqttReconnect_step (ok : bool) (st : State) :
  delayInRange st ->
  let res := mqttReconnect ok st in
  let waited := usub (millis st) (mqttConnectAttempt st) in
  let attempt := negb (mqttConnected st) && (waited >? mqttConnectDelay st) in
  res =
    if attempt then
      (ok,
       (if ok
        then fun s => set_mqttConnectDelay 0
                        (emit (EvSubscribe (mqttInTopic2 st))
                           (emit (EvSubscribe (mqttInTopic1 st)) s))
        else fun s => s)
         (set_mqttConnected ok
            (emit (EvConnect (mqttClientName st) (mqttUser st) (mqttPassword st) ok)
               (set_mqttConnectAttempt (millis st)
                  (set_mqttConnectDelay
                     (Z.min (mqttConnectDelay st + 1000) 60000) st)))))
    else (false, st).
Proof.
  intros Hd. unfold delayInRange in Hd. cbv zeta. unfold mqttReconnect.
  destruct (mqttConnected st); cbn [negb andb]; [reflexivity|].
  destruct (usub (millis st) (mqttConnectAttempt st) >? mqttConnectDelay st);
    [|reflexivity].
  rewrite (uadd_small _ Hd).
  cbn -[Z.gtb Z.min Z.add].
  destruct (Z.gtb_spec (mqttConnectDelay st + 1000) 60000) as [Hgt|Hle].
  - rewrite Z.min_r by lia. destruct ok; reflexivity.
  - rewrite Z.min_l by lia. destruct ok; reflexivity.
Qed.

Lemma tick_delayInRange (inp : Input) (st : State) :
  delayInRange st -> delayInRange (tick inp st).
Proof.
  intros Hd. unfold tick.
  assert (Ha : delayInRange (arrive inp st)).
  { unfold arrive, delayInRange in *. destruct (linkLost inp); exact Hd. }
  rewrite (mqttReconnect_step _ _ Ha). cbv zeta.
  unfold delayInRange in *.
  destruct (negb _ && _); [|exact Ha].
  destruct (connectOk inp); cbn -[Z.min]; lia.
Qed.

Lemma ticks_delayInRange (inps : list Input) :
  forall st, delayInRange st -> delayInRange (ticks inps st).
Proof.
  induction inps as [|i inps IH]; intros st Hd; [exact Hd|].
  cbn. apply IH, tick_delayInRange, Hd.
Qed.

(** C3.  After any sequence of reconnection ticks from a state whose
    delay is in range (it is 0 at power-on), the delay is between 0 and
    60 s, and the next tick behaves as follows.  A connect attempt is
    made only when the client is disconnected and the time since the last
    attempt exceeds the current delay; otherwise nothing changes.  An
    attempt records the time; when it fails the delay grows by exactly
    1000 ms, capped at 60000 ms; when it succeeds both command topics are
    subscribed, in order, and the delay is reset to 0. *)
Theorem reconnect_backoff (inps : list Input) (inp : Input) (st0 : State) :
  delayInRange st0 ->
  let st := arrive inp (ticks inps st0) in
  let res := mqttReconnect (connectOk inp) st in
  let st' := snd res in
  let waited := usub (millis st) (mqttConnectAttempt st) in
  let attempt := negb (mqttConnected st) && (waited >? mqttConnectDelay st) in
  let connect := EvConnect (mqttClientName st) (mqttUser st) (mqttPassword st)
                   (connectOk inp) in
  delayInRange st /\ delayInRange st'
  /\ (attempt = false -> res = (false, st))
  /\ (attempt = true ->
      mqttConnected st = false /\ mqttConnectDelay st < waited
      /\ mqttConnectAttempt st' = millis st
      /\ mqttConnected st' = connectOk inp /\ fst res = connectOk inp
      /\ (connectOk inp = false ->
          mqttConnectDelay st' = Z.min (mqttConnectDelay st + 1000) 60000
          /\ events st' = events st ++ [connect])
      /\ (connectOk inp = true ->
          mqttConnectDelay st' = 0
          /\ events st' = events st ++
               [connect; EvSubscribe (mqttInTopic1 st); EvSubscribe (mqttInTopic2 st)])).
Proof.
  intros H0 st res st' waited attempt connect.
  assert (Hd : delayInRange st).
  { subst st. pose proof (ticks_delayInRange inps st0 H0) as H.
    unfold arrive, delayInRange in *. destruct (linkLost inp); exact H. }
  pose proof (mqttReconnect_step (connectOk inp) st Hd) as Hstep.
  cbv zeta in Hstep. fold res waited attempt in Hstep.
  split; [exact Hd|]. split.
  - subst st'. rewrite Hstep. unfold delayInRange in *.
    destruct attempt; [|exact Hd].
    destruct (connectOk inp); cbn -[Z.min]; lia.
  - split.
    + intros Ha. rewrite Hstep, Ha. reflexivity.
    + intros Ha. subst st'. rewrite Hstep, Ha.
      subst attempt. apply andb_prop in Ha as [Hc Hw].
      apply negb_true_iff in Hc. apply Z.gtb_lt in Hw.
      split; [exact Hc|]. split; [exact Hw|].
      destruct (connectOk inp); cbn -[Z.min]; repeat split;
        try discriminate; rewrite <- ?app_assoc; reflexivity.
Qed.

(** ** Mode Controller *)

Lemma gpioLoop_frame (bl s1 s2 : bool) (st : State) :
  let st' := gpioLoop bl s1 s2 st in
  config st' = config st /\ mqtt st' = mqtt st /\ clock st' = clock st
  /\ otaRunning st' = otaRunning st /\ restart st' = restart st.
Proof.
  cbv zeta. rewrite gpioLoop_unfold. cbv zeta.
  destruct (startWifiManager_onDemand_frame st) as (Bc & _ & _ & Bq & Bt & Bo & Br).
  set (st0 := if bl then startWifiManager OnDemandTrue st else st).
  assert (H0 : config st0 = config st /\ mqtt st0 = mqtt st /\ clock st0 = clock st
               /\ otaRunning st0 = otaRunning st /\ restart st0 = restart st).
  { subst st0. destruct bl; repeat split; assumption. }
  set (st2 := set_s2State s2 (set_s1State s1 st0)).
  assert (H2 : config st2 = config st /\ mqtt st2 = mqtt st /\ clock st2 = clock st
               /\ otaRunning st2 = otaRunning st /\ restart st2 = restart st)
    by exact H0.
  clearbody st2. clear H0 st0 Bc Bq Bt Bo Br.
  set (st3 := if isEdge Ch1 s1 st then s1ChangedAction st2 else st2).
  assert (H3 : config st3 = config st /\ mqtt st3 = mqtt st /\ clock st3 = clock st
               /\ otaRunning st3 = otaRunning st /\ restart st3 = restart st).
  { subst st3. destruct (isEdge Ch1 s1 st); [|exact H2].
    rewrite s1ChangedAction_relayOp.
    destruct (relayOp_spec (mapped Ch1 st2) (decided Ch1 st2) st2)
      as (Hc & _ & Hm & Hq & Ht & _).
    cbv zeta in *. rewrite Hc, Hm, Hq, Ht. exact H2. }
  clearbody st3. clear H2 st2.
  set (st4 := if isEdge Ch2 s2 st then s2ChangedAction st3 else st3).
  assert (H4 : config st4 = config st /\ mqtt st4 = mqtt st /\ clock st4 = clock st
               /\ otaRunning st4 = otaRunning st /\ restart st4 = restart st).
  { subst st4. destruct (isEdge Ch2 s2 st); [|exact H3].
    rewrite s2ChangedAction_relayOp.
    destruct (relayOp_spec (mapped Ch2 st3) (decided Ch2 st3) st3)
      as (Hc & _ & Hm & Hq & Ht & _).
    cbv zeta in *. rewrite Hc, Hm, Hq, Ht. exact H3. }
  clearbody st4. clear H3 st3.
  destruct (isEdge Ch1 s1 st || isEdge Ch2 s2 st); [|exact H4].
  destruct (manualSetup_frame st4) as (Hc & _ & Hq & Ht & Ho & Hr).
  rewrite Hc, Hq, Ht, Ho, Hr. exact H4.
Qed.

Lemma relayOp_mode (r : Channel) (on : bool) (st : State) :
  mode (relayOp r on st) = mode st.
Proof. apply (relayOp_spec r on st). Qed.

Lemma wifimanagerLoop_frame (saved : option PortalParams) (up : bool) (st : State) :
  let st' := wifimanagerLoop saved up st in
  offline st' = negb up /\ mqttConnected st' = mqttConnected st
  /\ mqttConnectAttempt st' = mqttConnectAttempt st
  /\ mqttConnectDelay st' = mqttConnectDelay st
  /\ clock st' = clock st /\ otaRunning st' = otaRunning st
  /\ wifiManagerSetupRunning st' = wifiManagerSetupRunning st
  /\ (restart st = true -> restart st' = true).
Proof.
  cbv zeta. unfold wifimanagerLoop.
  destruct saved as [p|]; cbn -[Z.gtb usub];
    repeat match goal with
      | |- context [if ?c then _ else _] => destruct c eqn:?; cbn -[Z.gtb usub]
      end; repeat split; auto.
Qed.

Lemma mqttCallback_restart (topic : string) (payload : list ascii) (st : State) :
  restart st = true -> restart (mqttCallback topic payload st) = true.
Proof.
  intros H. rewrite mqttCallback_cases. cbv zeta.
  destruct (startWifiManager_onDemand_frame st) as (_ & _ & _ & _ & _ & _ & Hr).
  change (enableL1 st) with (relayOp Ch1 true st).
  change (disableL1 st) with (relayOp Ch1 false st).
  change (enableL2 st) with (relayOp Ch2 true st).
  change (disableL2 st) with (relayOp Ch2 false st).
  repeat match goal with
    | |- context [if ?c then _ else _] => destruct c
    end;
    rewrite ?relayOp_mode; try exact H; try reflexivity; rewrite Hr; exact H.
Qed.

Lemma clientLoop_restart (inbox : list (string * list ascii)) :
  forall st : State, restart st = true -> restart (clientLoop inbox st) = true.
Proof.
  induction inbox as [|m inbox IH]; intros st H; [exact H|].
  cbn. apply IH, mqttCallback_restart, H.
Qed.

(** A reset command somewhere in the delivered messages raises the flag,
    and the flag stays raised through the remaining messages. *)
Lemma clientLoop_reset (inbox : list (string * list ascii))
    (topic : string) (payload : list ascii) :
  In (topic, payload) inbox ->
  startsWith (payloadCommand payload) CMD_RESET = true ->
  forall st : State, restart (clientLoop inbox st) = true.
Proof.
  intros Hin Hcmd.
  induction inbox as [|m inbox IH]; [contradiction|].
  intros st. cbn. destruct Hin as [->|Hin].
  - apply clientLoop_restart. cbn [fst snd].
    rewrite mqttCallback_cases. cbv zeta. rewrite Hcmd.
    destruct (startsWith _ CMD_SETUP) eqn:Es; [|reflexivity].
    destruct (commandTests_cases (payloadCommand payload)) as [E|[E|[E|[E|[E|E]]]]];
      unfold commandTests in E; injection E as E1 E2 E3 E4 E5; congruence.
  - apply (IH Hin).
Qed.

Lemma mqttReconnect_frame (ok : bool) (st : State) :
  let st' := snd (mqttReconnect ok st) in
  config st' = config st /\ gpio st' = gpio st /\ gesture st' = gesture st
  /\ mode st' = mode st /\ clock st' = clock st /\ offline st' = offline st.
Proof.
  cbv zeta. unfold mqttReconnect.
  destruct (negb (mqttConnected st)); [|repeat split].
  destruct (usub _ _ >? _); [|repeat split].
  cbn -[Z.gtb uadd].
  destruct (uadd (mqttConnectDelay st) 1000 >? 60000), ok; repeat split.
Qed.

Lemma mqttLoop_restart (ok : bool) (inbox : list (string * list ascii)) (st : State) :
  restart st = true -> restart (mqttLoop ok inbox st) = true.
Proof.
  intros H. unfold mqttLoop.
  destruct (negb (mqttConnected st)); [|now apply clientLoop_restart].
  destruct (mqttReconnect_frame ok st) as (_ & _ & _ & Hm & _). cbv zeta in Hm.
  destruct (mqttReconnect ok st) as [res st1]. cbn [snd] in Hm.
  assert (H1 : restart st1 = true) by (rewrite Hm; exact H).
  destruct res; cbn [negb]; [now apply clientLoop_restart|exact H1].
Qed.

(** The cycle never clears the restart flag. *)
Lemma loop_restart_kept (inp : Input) (st : State) :
  restart st = true -> snd (loop inp st) = true.
Proof.
  intros H. unfold loop. cbn [snd].
  destruct (otaRunning st).
  - destruct (usub _ _ >? OTA_TIMEOUT_MS); [reflexivity|exact H].
  - destruct (gpioLoop_frame (buttonLow inp) (s1Low inp) (s2Low inp) st)
      as (_ & _ & _ & _ & Hr).
    cbv zeta in Hr.
    set (st1 := gpioLoop _ _ _ st) in *.
    destruct (wifimanagerLoop_frame (portalSaved inp) (wifiUp inp) st1)
      as (_ & _ & _ & _ & _ & _ & _ & Hw).
    cbv zeta in Hw.
    set (st2 := wifimanagerLoop _ _ st1) in *.
    assert (H2 : restart st2 = true) by (apply Hw; rewrite Hr; exact H).
    change (restart (mode (if negb (offline st2)
                           then mqttLoop (connectOk inp) (inbox inp) st2
                           else st2)) = true).
    destruct (negb (offline st2)); [now apply mqttLoop_restart|exact H2].
Qed.

Lemma loop_delivers (inp : Input) (st : State) :
  delivers inp st = true ->
  exists st1 : State,
    busUp st1 = true
    /\ fst (loop inp st) = delay LOOP_DELAY_MS (clientLoop (inbox inp) st1).
Proof.
  unfold delivers. intros H.
  apply andb_prop in H as [H Hc]. apply andb_prop in H as [Ho Hw].
  apply negb_true_iff in Ho.
  unfold loop. cbn [fst]. rewrite Ho.
  destruct (gpioLoop_frame (buttonLow inp) (s1Low inp) (s2Low inp) st)
    as (_ & Hq & Ht & _).
  cbv zeta in Hq, Ht.
  set (st1 := gpioLoop _ _ _ st) in *.
  destruct (wifimanagerLoop_frame (portalSaved inp) (wifiUp inp) st1)
    as (Hoff & Hcon & Hatt & Hdel & Hclk & _).
  cbv zeta in Hoff, Hcon, Hatt, Hdel, Hclk.
  set (st2 := wifimanagerLoop _ _ st1) in *.
  change (exists st3 : State,
            busUp st3 = true
            /\ delay LOOP_DELAY_MS
                 (if negb (offline st2)
                  then mqttLoop (connectOk inp) (inbox inp) st2 else st2)
               = delay LOOP_DELAY_MS (clientLoop (inbox inp) st3)).
  clearbody st2.
  rewrite Hoff, Hw. cbn [negb].
  unfold mqttLoop. rewrite Hcon, Hq.
  destruct (mqttConnected st) eqn:Ec; cbn [negb].
  - exists st2. split; [|reflexivity].
    unfold busUp. rewrite Hoff, Hw, Hcon, Hq, Ec. reflexivity.
  - cbn [orb] in Hc. apply andb_prop in Hc as [Hok Hgt].
    unfold mqttReconnect. rewrite Hcon, Hq, Ec. cbn [negb].
    unfold millis in *. rewrite Hclk, Ht, Hatt, Hdel, Hq, Hgt, Hok.
    cbv zeta. cbn [negb]. eexists. split; [|reflexivity].
    unfold busUp. cbn -[Z.gtb uadd].
    destruct (_ >? 60000); cbn; rewrite Hoff, Hw; reflexivity.
Qed.

(** The dispatcher leaves the connection state and the configuration
    alone, so the bus stays up from one delivered message to the next. *)
Lemma mqttCallback_mqtt (topic : string) (payload : list ascii) (st : State) :
  mqtt (mqttCallback topic payload st) = mqtt st
  /\ config (mqttCallback topic payload st) = config st.
Proof.
  rewrite mqttCallback_cases. cbv zeta.
  destruct (startWifiManager_onDemand_frame st) as (Hc & _ & _ & Hq & _).
  change (enableL1 st) with (relayOp Ch1 true st).
  change (disableL1 st) with (relayOp Ch1 false st).
  change (enableL2 st) with (relayOp Ch2 true st).
  change (disableL2 st) with (relayOp Ch2 false st).
  repeat match goal with
    | |- context [if ?c then _ else _] => destruct c
    end;
    try (split; [exact Hq|exact Hc]);
    try (split; reflexivity);
    match goal with
    | |- context [relayOp ?r ?on st] =>
        destruct (relayOp_spec r on st) as (Hc' & _ & _ & Hq' & _);
        split; [exact Hq'|exact Hc']
    end.
Qed.

Lemma clientLoop_mqtt (inbox : list (string * list ascii)) :
  forall st : State, mqtt (clientLoop inbox st) = mqtt st.
Proof.
  induction inbox as [|m inbox IH]; intros st; [reflexivity|].
  cbn. rewrite IH. apply mqttCallback_mqtt.
Qed.

Lemma cycle_delayInRange (inp : Input) (st : State) :
  delayInRange st -> delayInRange (fst (cycle inp st)).
Proof.
  intros Hd. unfold cycle.
  assert (Ha : delayInRange (arrive inp st)).
  { unfold arrive, delayInRange in *. destruct (linkLost inp); exact Hd. }
  set (st0 := arrive inp st) in *. clearbody st0.
  unfold loop. cbn [fst].
  destruct (otaRunning st0).
  - destruct (_ >? OTA_TIMEOUT_MS); exact Ha.
  - destruct (gpioLoop_frame (buttonLow inp) (s1Low inp) (s2Low inp) st0)
      as (_ & Hq & _).
    cbv zeta in Hq.
    set (st1 := gpioLoop _ _ _ st0) in *.
    destruct (wifimanagerLoop_frame (portalSaved inp) (wifiUp inp) st1)
      as (_ & _ & _ & Hdel & _).
    cbv zeta in Hdel.
    set (st2 := wifimanagerLoop _ _ st1) in *.
    assert (H2 : delayInRange st2)
      by (unfold delayInRange in *; rewrite Hdel, Hq; exact Ha).
    change (delayInRange
              (if negb (offline st2)
               then mqttLoop (connectOk inp) (inbox inp) st2 else st2)).
    destruct (negb (offline st2)); [|exact H2].
    unfold mqttLoop.
    assert (Hc : forall s : State,
               delayInRange s -> delayInRange (clientLoop (inbox inp) s)).
    { intros s Hs. unfold delayInRange in *. now rewrite clientLoop_mqtt. }
    destruct (mqttConnected st2) eqn:Ec; cbn [negb]; [now apply Hc|].
    pose proof (mqttReconnect_step (connectOk inp) st2 H2) as Hs.
    cbv zeta in Hs. rewrite Hs, Ec. cbn [negb andb].
    destruct (_ >? _); [|exact H2].
    destruct (connectOk inp); cbn [negb].
    + apply Hc. unfold delayInRange. cbn. lia.
    + unfold delayInRange in *. cbn -[Z.min]. lia.
Qed.

Lemma boot_delayInRange (env : BootEnv) : delayInRange (boot env).
Proof.
  unfold delayInRange, boot, setup, startWifiManager, readConfig.
  cbn -[ulong].
  destruct (autoConnectOpensPortal env), (configJson env); cbn; lia.
Qed.

(** The delay stays between 0 and 60 s in every state of the running
    loop. *)
Lemma reachable_delayInRange (st : State) : reachable st -> delayInRange st.
Proof.
  induction 1 as [env|st inp _ IH _].
  - apply boot_delayInRange.
  - apply cycle_delayInRange, IH.
Qed.

(** C6, as the code has it.  A payload beginning with "rst" raises the
    restart flag whenever the dispatcher is handed it, whatever the mode
    flags and the topic are.  No part of the cycle clears the flag, and
    the cycle ends by restarting when it is set; so a cycle that
    delivers such a message ends with [ESP.restart()].  Messages are
    delivered only outside update mode: while [otaRunning] is set the
    loop does not service the client, and a cycle neither raises the
    flag nor restarts before the update timeout, whatever has arrived. *)
Theorem reset_command (topic : string) (payload : list ascii) :
  startsWith (payloadCommand payload) CMD_RESET = true ->
  (forall st : State, restart (mqttCallback topic payload st) = true)
  /\ (forall inp (st : State), restart st = true -> snd (loop inp st) = true)
  /\ (forall inp (st : State),
        delivers inp st = true -> In (topic, payload) (inbox inp) ->
        restart (fst (loop inp st)) = true /\ snd (loop inp st) = true)
  /\ (forall inp (st : State),
        otaRunning st = true -> restart st = false ->
        (usub (millis st) (otaStart st) >? OTA_TIMEOUT_MS) = false ->
        fst (loop inp st) = emit EvOtaHandle st /\ snd (loop inp st) = false).
Proof.
  intros Hcmd. split; [|split; [|split]].
  - intros st.
    apply (clientLoop_reset [(topic, payload)] topic payload (or_introl eq_refl) Hcmd st).
  - apply loop_restart_kept.
  - intros inp st Hd Hin.
    destruct (loop_delivers inp st Hd) as (st1 & _ & E).
    assert (R : restart (fst (loop inp st)) = true).
    { rewrite E. cbn. apply (clientLoop_reset _ topic payload Hin Hcmd). }
    split; [exact R|]. unfold loop in *. cbn [fst snd] in *. exact R.
  - intros inp st Ho Hr Ht. unfold loop. rewrite Ho.
    change (millis (emit EvOtaHandle st)) with (millis st).
    change (otaStart (emit EvOtaHandle st)) with (otaStart st).
    rewrite Ht. cbn [fst snd]. split; [reflexivity|exact Hr].
Qed.

(** C6, as the claim words it, fails on the code: in update mode a
    cycle in which a "rst" command has arrived on command topic 1 leaves
    the restart flag down and does not restart. *)
Lemma reset_in_update_counterexample :
  let inp := quietInput [("ibnhouse/light/kitchen/cmd1", bytes "rst")] in
  otaRunning setThenOta = true
  /\ In (mqttInTopic1 setThenOta, bytes "rst") (inbox inp)
  /\ startsWith (payloadCommand (bytes "rst")) CMD_RESET = true
  /\ restart (fst (cycle inp setThenOta)) = false
  /\ snd (cycle inp setThenOta) = false.
Proof.
  cbv zeta. split; [vm_compute; reflexivity|].
  split; [left; vm_compute; reflexivity|].
  repeat split; vm_compute; reflexivity.
Qed.

(** ** Setup-Gesture Detector *)

Lemma manualSetup_gesture (st : State) :
  let gap := usub (millis st) (manualSetupActivatorTime st) in
  gesture (manualSetup st) =
    mkGesture (millis st)
      (if gap <? MANUAL_SETUP_MAX_DELAY_MS
       then int_wrap (manualSetupModeCounter st + 1) else 0).
Proof.
  cbv zeta. unfold manualSetup.
  destruct (usub (millis st) (manualSetupActivatorTime st)
            <? MANUAL_SETUP_MAX_DELAY_MS); cbn -[Z.eqb int_wrap]; [|reflexivity].
  destruct (int_wrap (manualSetupModeCounter st + 1) =? MANUAL_SETUP_COUNTER);
    cbn -[int_wrap]; [|reflexivity].
  destruct (startWifiManager_onDemand_frame
              (set_manualSetupModeCounter
                 (int_wrap (manualSetupModeCounter st + 1)) st))
    as (_ & _ & Hge & _ & Ht & _).
  unfold millis. rewrite Hge, Ht. reflexivity.
Qed.

Lemma int_wrap_small (z : Z) : - 2 ^ 31 <= z < 2 ^ 31 -> int_wrap z = z.
Proof.
  intros H. unfold int_wrap.
  change (2 ^ 31) with 2147483648 in *. change (2 ^ 32) with 4294967296.
  rewrite Z.mod_small by lia. lia.
Qed.

(** C2, as the code has it.  On every switch edge the gesture block
    takes the gap since the previous edge (modulo 2^32); when the gap is
    below 500 ms the counter is incremented, otherwise it is reset to 0;
    the time of the edge is recorded.  The portal is requested exactly
    when the incremented counter equals 5 (and is opened unless already
    running); the counter is left at 5.  From an idle detector, six
    edges 100 ms apart open the portal exactly once, and so do seven;
    five such edges do not open it, nor do five edges one of whose gaps
    is 600 ms. *)
Theorem gesture_detector (st : State) :
  let gap := usub (millis st) (manualSetupActivatorTime st) in
  let st' := manualSetup st in
  manualSetupActivatorTime st' = millis st
  /\ manualSetupModeCounter st' =
       (if gap <? 500 then int_wrap (manualSetupModeCounter st + 1) else 0)
  /\ (0 <= manualSetupModeCounter st < 5 -> gap < 500 ->
      manualSetupModeCounter st' = manualSetupModeCounter st + 1)
  /\ events st' =
       events st ++
       (if (gap <? 500) && (int_wrap (manualSetupModeCounter st + 1) =? 5)
           && negb (wifiManagerSetupRunning st)
        then [EvStartConfigPortal (mqttClientName st)] else [])
  /\ portalEntries (edgesAt [2000; 2100; 2200; 2300; 2400] (boot plainBoot)) = 0%nat
  /\ portalEntries (edgesAt [2000; 2100; 2200; 2300; 2400; 2500] (boot plainBoot)) = 1%nat
  /\ portalEntries (edgesAt [2000; 2100; 2200; 2300; 2400; 2500; 2600] (boot plainBoot)) = 1%nat
  /\ manualSetupModeCounter
       (edgesAt [2000; 2100; 2200; 2300; 2400; 2500] (boot plainBoot)) = 5
  /\ portalEntries (edgesAt [2000; 2100; 2700; 2800; 2900] (boot plainBoot)) = 0%nat.
Proof.
  intros gap st'.
  pose proof (manualSetup_gesture st) as G. cbv zeta in G. fold gap st' in G.
  pose proof (manualSetup_events st) as E. fold st' in E.
  unfold gestureFires in E. fold gap in E.
  change MANUAL_SETUP_MAX_DELAY_MS with 500 in *.
  change MANUAL_SETUP_COUNTER with 5 in *.
  split; [now rewrite G|]. split; [now rewrite G|]. split.
  - intros Hc Hg. rewrite G. cbn [manualSetupModeCounter].
    destruct (Z.ltb_spec gap 500); [|lia].
    apply int_wrap_small. change (2 ^ 31) with 2147483648. lia.
  - split; [exact E|]. repeat split; vm_compute; reflexivity.
Qed.

(** C2, as the claim words it, fails on the code.  At the first edge
    after an idle second the gap is not below 500 ms and the counter is
    0 afterwards, not 1; five edges 100 ms apart then leave the portal
    closed; and an edge that brings the counter to 5 leaves it at 5. *)
Lemma gesture_claim_counterexample :
  let st := with_clock 2000 (boot plainBoot) in
  ~ (usub (millis st) (manualSetupActivatorTime st) < 500)
  /\ manualSetupModeCounter (manualSetup st) <> 1
  /\ portalEntries (edgesAt [2000; 2100; 2200; 2300; 2400] (boot plainBoot)) <> 1%nat
  /\ manualSetupModeCounter
       (edgesAt [2000; 2100; 2200; 2300; 2400; 2500] (boot plainBoot)) <> 0.
Proof.
  cbv zeta. repeat split; vm_compute; discriminate.
Qed.

(** ** Mode flags over a cycle *)

Lemma flagsKept_refl (st : State) : flagsKept st st.
Proof. unfold flagsKept; auto. Qed.

Lemma flagsKept_trans (a b c : State) :
  flagsKept a b -> flagsKept b c -> flagsKept a c.
Proof. unfold flagsKept; intuition. Qed.

Lemma flagsKept_mode (st st' : State) : mode st' = mode st -> flagsKept st st'.
Proof. unfold flagsKept. intros ->. auto. Qed.

Lemma startWifiManager_onDemand_kept (st : State) :
  flagsKept st (startWifiManager OnDemandTrue st).
Proof.
  unfold flagsKept, startWifiManager.
  destruct (wifiManagerSetupRunning st) eqn:E; cbn; auto.
Qed.

Lemma manualSetup_kept (st : State) : flagsKept st (manualSetup st).
Proof.
  unfold manualSetup.
  destruct (usub _ _ <? MANUAL_SETUP_MAX_DELAY_MS); cbn -[Z.eqb int_wrap];
    [|apply flagsKept_mode; reflexivity].
  destruct (_ =? MANUAL_SETUP_COUNTER); [|apply flagsKept_mode; reflexivity].
  eapply flagsKept_trans;
    [|eapply flagsKept_trans;
      [apply (startWifiManager_onDemand_kept
                (set_manualSetupModeCounter
                   (int_wrap (manualSetupModeCounter st + 1)) st))|]];
    apply flagsKept_mode; reflexivity.
Qed.

Lemma gpioLoop_kept (bl s1 s2 : bool) (st : State) :
  flagsKept st (gpioLoop bl s1 s2 st).
Proof.
  rewrite gpioLoop_unfold. cbv zeta.
  set (st0 := if bl then startWifiManager OnDemandTrue st else st).
  assert (H0 : flagsKept st st0).
  { subst st0. destruct bl; [apply startWifiManager_onDemand_kept|apply flagsKept_refl]. }
  set (st2 := set_s2State s2 (set_s1State s1 st0)).
  assert (H2 : flagsKept st st2) by exact H0.
  clearbody st2. clear H0 st0.
  set (st3 := if isEdge Ch1 s1 st then s1ChangedAction st2 else st2).
  assert (H3 : flagsKept st st3).
  { subst st3. destruct (isEdge Ch1 s1 st); [|exact H2].
    rewrite s1ChangedAction_relayOp.
    eapply flagsKept_trans; [exact H2|]. apply flagsKept_mode, relayOp_mode. }
  clearbody st3. clear H2 st2.
  set (st4 := if isEdge Ch2 s2 st then s2ChangedAction st3 else st3).
  assert (H4 : flagsKept st st4).
  { subst st4. destruct (isEdge Ch2 s2 st); [|exact H3].
    rewrite s2ChangedAction_relayOp.
    eapply flagsKept_trans; [exact H3|]. apply flagsKept_mode, relayOp_mode. }
  clearbody st4. clear H3 st3.
  destruct (_ || _); [|exact H4].
  eapply flagsKept_trans; [exact H4|apply manualSetup_kept].
Qed.

Lemma wifimanagerLoop_kept (saved : option PortalParams) (up : bool) (st : State) :
  flagsKept st (wifimanagerLoop saved up st).
Proof.
  destruct (wifimanagerLoop_frame saved up st) as (_ & _ & _ & _ & _ & Ho & Hp & Hr).
  cbv zeta in *. unfold flagsKept. rewrite Ho, Hp. auto.
Qed.

Lemma mqttCallback_kept (topic : string) (payload : list ascii) (st : State) :
  flagsKept st (mqttCallback topic payload st).
Proof.
  rewrite mqttCallback_cases. cbv zeta.
  change (enableL1 st) with (relayOp Ch1 true st).
  change (disableL1 st) with (relayOp Ch1 false st).
  change (enableL2 st) with (relayOp Ch2 true st).
  change (disableL2 st) with (relayOp Ch2 false st).
  repeat match goal with
    | |- context [if ?c then _ else _] => destruct c
    end;
    first [ apply flagsKept_refl
          | apply startWifiManager_onDemand_kept
          | apply flagsKept_mode, relayOp_mode
          | unfold flagsKept, otaEnter; cbn; auto ].
Qed.

Lemma clientLoop_kept (inbox : list (string * list ascii)) :
  forall st : State, flagsKept st (clientLoop inbox st).
Proof.
  induction inbox as [|m inbox IH]; intros st; [apply flagsKept_refl|].
  cbn. eapply flagsKept_trans; [apply mqttCallback_kept|apply IH].
Qed.

Lemma mqttLoop_kept (ok : bool) (inbox : list (string * list ascii)) (st : State) :
  flagsKept st (mqttLoop ok inbox st).
Proof.
  unfold mqttLoop.
  destruct (negb (mqttConnected st)); [|apply clientLoop_kept].
  destruct (mqttReconnect_frame ok st) as (_ & _ & _ & Hm & _). cbv zeta in Hm.
  destruct (mqttReconnect ok st) as [res st1]. cbn [snd] in Hm.
  apply flagsKept_mode in Hm.
  destruct res; cbn [negb]; [|exact Hm].
  eapply flagsKept_trans; [exact Hm|apply clientLoop_kept].
Qed.

(** In update mode a cycle only hands control to the updater and checks
    the update timeout. *)
Lemma loop_in_update (inp : Input) (st : State) :
  otaRunning st = true ->
  fst (loop inp st) =
    (if usub (millis st) (otaStart st) >? OTA_TIMEOUT_MS
     then set_restart true (emit EvOtaHandle st)
     else emit EvOtaHandle st).
Proof. intros H. unfold loop. cbn [fst]. rewrite H. reflexivity. Qed.

Lemma loop_kept (inp : Input) (st : State) : flagsKept st (fst (loop inp st)).
Proof.
  destruct (otaRunning st) eqn:Eo.
  - rewrite loop_in_update by exact Eo.
    destruct (_ >? OTA_TIMEOUT_MS); unfold flagsKept; cbn; auto.
  - unfold loop. cbn [fst]. rewrite Eo.
    set (st1 := gpioLoop (buttonLow inp) (s1Low inp) (s2Low inp) st).
    pose proof (gpioLoop_kept (buttonLow inp) (s1Low inp) (s2Low inp) st) as H1.
    fold st1 in H1.
    pose proof (wifimanagerLoop_kept (portalSaved inp) (wifiUp inp) st1) as H2.
    set (st2 := wifimanagerLoop (portalSaved inp) (wifiUp inp) st1) in *.
    apply flagsKept_trans with (b := st2);
      [eapply flagsKept_trans; eassumption|].
    apply flagsKept_trans
      with (b := if negb (offline st2)
                 then mqttLoop (connectOk inp) (inbox inp) st2 else st2).
    + destruct (negb (offline st2)); [apply mqttLoop_kept|apply flagsKept_refl].
    + apply flagsKept_mode. reflexivity.
Qed.

Lemma cycle_kept (inp : Input) (st : State) : flagsKept st (fst (cycle inp st)).
Proof.
  unfold cycle.
  eapply flagsKept_trans; [|apply loop_kept].
  apply flagsKept_mode. unfold arrive. destruct (linkLost inp); reflexivity.
Qed.

Lemma startWifiManager_guard (d : OnDemand) (st : State) :
  wifiManagerSetupRunning st = true -> startWifiManager d st = st.
Proof. intros H. unfold startWifiManager. rewrite H. reflexivity. Qed.

(** C5, as the code has it.  A request for the portal while the portal
    is running does nothing.  While update mode is running a cycle only
    services the updater and its timeout: sampling, portal servicing and
    the bus are skipped, so no portal request is handled, and the portal
    flag, the configuration and the relays stay as they are.  Entering
    update mode is not guarded: an "ota" command raises [otaRunning] and
    leaves [wifiManagerSetupRunning] as it is, also when it is set.  No
    cycle lowers a raised flag: a mode ends only by restart. *)
Theorem mode_flags (inp : Input) (st : State) :
  (forall d, wifiManagerSetupRunning st = true -> startWifiManager d st = st)
  /\ (otaRunning st = true ->
      let st' := fst (loop inp st) in
      otaRunning st' = true
      /\ wifiManagerSetupRunning st' = wifiManagerSetupRunning st
      /\ config st' = config st /\ gpio st' = gpio st /\ gesture st' = gesture st
      /\ mqtt st' = mqtt st
      /\ events st' = events st ++ [EvOtaHandle])
  /\ (forall topic payload,
        startsWith (payloadCommand payload) CMD_OTA = true ->
        otaRunning (mqttCallback topic payload st) = true
        /\ wifiManagerSetupRunning (mqttCallback topic payload st)
           = wifiManagerSetupRunning st)
  /\ flagsKept st (fst (cycle inp st)).
Proof.
  split; [intros d; apply startWifiManager_guard|].
  split; [|split; [|apply cycle_kept]].
  - intros Ho. cbv zeta. rewrite loop_in_update by exact Ho.
    destruct (_ >? OTA_TIMEOUT_MS); cbn; repeat split; assumption.
  - intros topic payload H.
    pose proof (mqttCallback_cases topic payload st) as Hc. cbv zeta in Hc.
    destruct (commandTests_cases (payloadCommand payload)) as [E|[E|[E|[E|[E|E]]]]];
      unfold commandTests in E; injection E as E1 E2 E3 E4 E5; try congruence.
    rewrite E3, E5, H in Hc. rewrite Hc. split; reflexivity.
Qed.

(** C5, as the claim words it, fails on the code: after a boot that
    connects, a "set" command in one cycle and an "ota" command in the
    next leave the portal flag and the update flag both set. *)
Lemma mode_exclusivity_counterexample :
  reachable setThenOta
  /\ wifiManagerSetupRunning setThenOta = true
  /\ otaRunning setThenOta = true.
Proof.
  split; [|split; vm_compute; reflexivity].
  unfold setThenOta.
  apply reachable_cycle; [|vm_compute; reflexivity].
  apply reachable_cycle; [|vm_compute; reflexivity].
  apply reachable_boot.
Qed.

(** * Concrete runs *)

(** The policy table for switch 1 going from released to pressed with
    both relays off: the pair (relay 1, relay 2) afterwards. *)
Lemma policy_table_s1_pressed :
  forall swap invert respect : bool,
    let st := with_config
                (mkConfig "" "" "" "" "" "sta1" "cmd1" "sta2" "cmd2"
                   swap invert respect) (boot plainBoot) in
    let st' := gpioLoop false true false st in
    (l1State st', l2State st')
    = match swap, invert, respect with
      | false, false, _ => (true, false)
      | false, true, true => (false, false)
      | false, true, false => (true, false)
      | true, false, _ => (false, true)
      | true, true, true => (false, false)
      | true, true, false => (false, true)
      end.
Proof. intros [|] [|] [|]; vm_compute; reflexivity. Qed.

Lemma status_payload_witness :
  relayState Ch1 pressedOn = true
  /\ switchState (mapped Ch1 pressedOn) pressedOn = true
  /\ busUp pressedOn = true
  /\ mqttCommunicate true pressedOn
     = emit (EvPublish "ibnhouse/light/kitchen/sta1" "1." true) pressedOn.
Proof.
  pose proof (status_payload Ch1 pressedOn) as H. cbv zeta in H.
  destruct H as (Hp & _ & _ & Ht).
  assert (R : relayState Ch1 pressedOn = true) by reflexivity.
  assert (S : switchState (mapped Ch1 pressedOn) pressedOn = true) by reflexivity.
  specialize (Ht R S).
  split; [exact R|]. split; [exact S|]. split; [reflexivity|].
  rewrite Ht in Hp. exact Hp.
Defined.

Lemma command_twice_witness :
  busUp onlineState = true
  /\ startsWith (payloadCommand (bytes "1")) CMD_ON = true
  /\ (let st1 := mqttCallback (inTopic Ch1 onlineState) (bytes "1") onlineState in
      let st2 := mqttCallback (inTopic Ch1 onlineState) (bytes "1") st1 in
      relayState Ch1 st1 = true /\ relayState Ch1 st2 = true
      /\ events st2 = events onlineState ++
           [EvPublish "ibnhouse/light/kitchen/sta1" "1" true;
            EvPublish "ibnhouse/light/kitchen/sta1" "1" true]).
Proof.
  assert (U : busUp onlineState = true) by reflexivity.
  assert (C : startsWith (payloadCommand (bytes "1")) (if true then CMD_ON else CMD_OFF)
              = true) by reflexivity.
  assert (N : Ch1 = Ch2 -> mqttInTopic1 onlineState <> mqttInTopic2 onlineState)
    by discriminate.
  pose proof (command_twice Ch1 true (bytes "1") onlineState U C N) as H.
  cbv zeta in H. destruct H as (H1 & _ & H2 & _ & _ & H3 & _).
  split; [exact U|]. split; [exact C|].
  cbv zeta. split; [exact H1|]. split; [exact H2|exact H3].
Defined.

Lemma shared_topic_witness :
  mqttInTopic1 sharedTopicState = mqttInTopic2 sharedTopicState
  /\ startsWith (payloadCommand (bytes "1")) CMD_ON = true
  /\ relayState Ch1 (mqttCallback "house/cmd" (bytes "1") sharedTopicState) = true
  /\ relayState Ch2 (mqttCallback "house/cmd" (bytes "1") sharedTopicState) = false.
Proof.
  assert (S : mqttInTopic1 sharedTopicState = mqttInTopic2 sharedTopicState)
    by reflexivity.
  assert (C : startsWith (payloadCommand (bytes "1")) (if true then CMD_ON else CMD_OFF)
              = true) by reflexivity.
  pose proof (shared_topic_reaches_channel1_only true (bytes "1") sharedTopicState S C)
    as H.
  cbv zeta in H. destruct H as (_ & H1 & H2 & _).
  split; [exact S|]. split; [exact C|]. split; [exact H1|exact H2].
Defined.

Lemma dispatcher_witness :
  mqttCallback "elsewhere" (bytes "set") onlineState
    = startWifiManager OnDemandTrue onlineState
  /\ mqttCallback "elsewhere" (bytes "rst now") onlineState
     = set_restart true onlineState
  /\ mqttCallback "elsewhere" (bytes "ota") onlineState = otaEnter onlineState
  /\ mqttCallback "ibnhouse/light/kitchen/cmd1" (bytes "1") onlineState
     = relayOp Ch1 true onlineState
  /\ mqttCallback "ibnhouse/light/kitchen/cmd2" (bytes "0") onlineState
     = relayOp Ch2 false onlineState
  /\ mqttCallback "elsewhere" (bytes "1") onlineState = onlineState
  /\ mqttCallback "ibnhouse/light/kitchen/cmd1" (bytes "hello") onlineState
     = onlineState
  /\ (startsWith (payloadCommand (bytes "set")) CMD_SETUP = true
      <-> firstn 3 (bytes "set") = bytes "set").
Proof.
  assert (Cset : startsWith (payloadCommand (bytes "set")) CMD_SETUP = true)
    by (vm_compute; reflexivity).
  assert (Crst : startsWith (payloadCommand (bytes "rst now")) CMD_RESET = true)
    by (vm_compute; reflexivity).
  assert (Cota : startsWith (payloadCommand (bytes "ota")) CMD_OTA = true)
    by (vm_compute; reflexivity).
  assert (Con : startsWith (payloadCommand (bytes "1"))
                  (if true then CMD_ON else CMD_OFF) = true)
    by (vm_compute; reflexivity).
  assert (Coff : startsWith (payloadCommand (bytes "0"))
                   (if false then CMD_ON else CMD_OFF) = true)
    by (vm_compute; reflexivity).
  assert (Cno : forall c, startsWith (payloadCommand (bytes "hello")) c
                          = startsWith "hello" c)
    by (intros c; vm_compute; reflexivity).
  split; [|split; [|split; [|split; [|split; [|split; [|split]]]]]].
  - pose proof (dispatcher_spec "elsewhere" (bytes "set") onlineState) as H.
    cbv zeta in H. destruct H as (_ & H & _). exact (H Cset).
  - pose proof (dispatcher_spec "elsewhere" (bytes "rst now") onlineState) as H.
    cbv zeta in H. destruct H as (_ & _ & H & _). exact (H Crst).
  - pose proof (dispatcher_spec "elsewhere" (bytes "ota") onlineState) as H.
    cbv zeta in H. destruct H as (_ & _ & _ & H & _). exact (H Cota).
  - pose proof (dispatcher_spec "ibnhouse/light/kitchen/cmd1" (bytes "1") onlineState) as H.
    cbv zeta in H. destruct H as (_ & _ & _ & _ & H & _).
    destruct (H true Con) as (H1 & _).
    assert (T : "ibnhouse/light/kitchen/cmd1"%string = mqttInTopic1 onlineState)
      by (vm_compute; reflexivity).
    exact (proj1 (H1 T)).
  - pose proof (dispatcher_spec "ibnhouse/light/kitchen/cmd2" (bytes "0") onlineState) as H.
    cbv zeta in H. destruct H as (_ & _ & _ & _ & H & _).
    destruct (H false Coff) as (_ & H2 & _).
    assert (N : "ibnhouse/light/kitchen/cmd2"%string <> mqttInTopic1 onlineState)
      by (vm_compute; discriminate).
    assert (T : "ibnhouse/light/kitchen/cmd2"%string = mqttInTopic2 onlineState)
      by (vm_compute; reflexivity).
    exact (proj1 (H2 N T)).
  - pose proof (dispatcher_spec "elsewhere" (bytes "1") onlineState) as H.
    cbv zeta in H. destruct H as (_ & _ & _ & _ & H & _).
    destruct (H true Con) as (_ & _ & H3).
    assert (N1 : "elsewhere"%string <> mqttInTopic1 onlineState)
      by (vm_compute; discriminate).
    assert (N2 : "elsewhere"%string <> mqttInTopic2 onlineState)
      by (vm_compute; discriminate).
    exact (H3 N1 N2).
  - pose proof (dispatcher_spec "ibnhouse/light/kitchen/cmd1" (bytes "hello") onlineState)
      as H.
    cbv zeta in H. destruct H as (_ & _ & _ & _ & _ & H).
    apply H; rewrite Cno; vm_compute; reflexivity.
  - pose proof (dispatcher_spec "elsewhere" (bytes "set") onlineState) as H.
    cbv zeta in H. destruct H as (H & _).
    apply (H CMD_SETUP). cbn. tauto.
Defined.

Lemma publication_dropped_witness :
  busUp (boot plainBoot) = false
  /\ relayState Ch1 (relayOp Ch1 true (boot plainBoot)) = true
  /\ events (relayOp Ch1 true (boot plainBoot)) = events (boot plainBoot)
  /\ publications (fst (cycle (quietInput []) (relayOp Ch1 true (boot plainBoot))))
     = publications (relayOp Ch1 true (boot plainBoot)).
Proof.
  assert (D : busUp (boot plainBoot) = false) by reflexivity.
  pose proof (publication_dropped_when_bus_down Ch1 true (boot plainBoot) D) as H.
  cbv zeta in H. destruct H as (H1 & _ & H2 & _ & _ & _ & _ & _ & _ & _ & H3).
  split; [exact D|]. split; [exact H1|]. split; [exact H2|].
  apply H3; reflexivity.
Defined.

Lemma reconnect_backoff_witness :
  delayInRange powerOn
  /\ mqttConnectDelay (ticks [failingTick] powerOn) = 1000
  /\ mqttReconnect false (arrive failingTick (ticks [failingTick] powerOn))
     = (false, arrive failingTick (ticks [failingTick] powerOn))
  /\ mqttConnectDelay
       (snd (mqttReconnect true
               (arrive (mkInput 2000 false false false false None true true [])
                  (ticks [failingTick] powerOn)))) = 0.
Proof.
  assert (D : delayInRange powerOn) by (unfold delayInRange; cbn; lia).
  split; [exact D|]. split; [|split].
  - pose proof (reconnect_backoff [] failingTick powerOn D) as H.
    cbv zeta in H. destruct H as (_ & _ & _ & H).
    destruct (H eq_refl) as (_ & _ & _ & _ & _ & Hf & _).
    destruct (Hf eq_refl) as [Hd _]. exact Hd.
  - pose proof (reconnect_backoff [failingTick] failingTick powerOn D) as H.
    cbv zeta in H. destruct H as (_ & _ & H & _).
    apply H. reflexivity.
  - pose proof (reconnect_backoff [failingTick]
                  (mkInput 2000 false false false false None true true [])
                  powerOn D) as H.
    cbv zeta in H. destruct H as (_ & _ & _ & H).
    destruct (H eq_refl) as (_ & _ & _ & _ & _ & _ & Hs).
    destruct (Hs eq_refl) as [Hd _]. exact Hd.
Defined.

Lemma reset_command_witness :
  startsWith (payloadCommand (bytes "rst")) CMD_RESET = true
  /\ restart (mqttCallback "elsewhere" (bytes "rst") setThenOta) = true
  /\ snd (loop (quietInput []) (set_restart true setThenOta)) = true
  /\ delivers (quietInput [("elsewhere", bytes "rst")]) onlineState = true
  /\ snd (loop (quietInput [("elsewhere", bytes "rst")]) onlineState) = true
  /\ otaRunning setThenOta = true
  /\ snd (loop (quietInput [("elsewhere", bytes "rst")]) setThenOta) = false.
Proof.
  assert (C : startsWith (payloadCommand (bytes "rst")) CMD_RESET = true)
    by (vm_compute; reflexivity).
  destruct (reset_command "elsewhere" (bytes "rst") C) as (H1 & H2 & H3 & H4).
  assert (D : delivers (quietInput [("elsewhere", bytes "rst")]) onlineState = true)
    by (vm_compute; reflexivity).
  assert (O : otaRunning setThenOta = true) by (vm_compute; reflexivity).
  assert (R : restart setThenOta = false) by (vm_compute; reflexivity).
  assert (T : (usub (millis setThenOta) (otaStart setThenOta) >? OTA_TIMEOUT_MS)
              = false) by (vm_compute; reflexivity).
  split; [exact C|]. split; [apply H1|]. split; [apply H2; reflexivity|].
  split; [exact D|]. split.
  - apply (H3 (quietInput [("elsewhere", bytes "rst")]) onlineState D).
    left. reflexivity.
  - split; [exact O|].
    exact (proj2 (H4 (quietInput [("elsewhere", bytes "rst")]) setThenOta O R T)).
Defined.

Lemma gesture_detector_witness :
  let st := set_manualSetupModeCounter 4 (with_clock 100 onlineState) in
  0 <= manualSetupModeCounter st < 5
  /\ usub (millis st) (manualSetupActivatorTime st) < 500
  /\ manualSetupModeCounter (manualSetup st) = 5
  /\ events (manualSetup st) = events st ++ [EvStartConfigPortal "Detritus-1a2b3c"].
Proof.
  cbv zeta.
  pose proof (gesture_detector
                (set_manualSetupModeCounter 4 (with_clock 100 onlineState))) as H.
  cbv zeta in H. destruct H as (_ & _ & Hc & He & _).
  assert (R : 0 <= manualSetupModeCounter
                     (set_manualSetupModeCounter 4 (with_clock 100 onlineState)) < 5)
    by (cbn; lia).
  assert (G : usub (millis (set_manualSetupModeCounter 4 (with_clock 100 onlineState)))
                (manualSetupActivatorTime
                   (set_manualSetupModeCounter 4 (with_clock 100 onlineState))) < 500)
    by reflexivity.
  split; [exact R|]. split; [exact G|]. split.
  - rewrite (Hc R G). reflexivity.
  - rewrite He. reflexivity.
Defined.

Lemma mode_flags_witness :
  wifiManagerSetupRunning setThenOta = true
  /\ otaRunning setThenOta = true
  /\ startWifiManager OnDemandTrue setThenOta = setThenOta
  /\ wifiManagerSetupRunning (fst (loop (quietInput []) setThenOta)) = true
  /\ events (fst (loop (quietInput []) setThenOta)) = events setThenOta ++ [EvOtaHandle]
  /\ startsWith (payloadCommand (bytes "ota")) CMD_OTA = true
  /\ otaRunning (mqttCallback "elsewhere" (bytes "ota") setThenOta) = true.
Proof.
  assert (P : wifiManagerSetupRunning setThenOta = true) by reflexivity.
  assert (O : otaRunning setThenOta = true) by reflexivity.
  assert (C : startsWith (payloadCommand (bytes "ota")) CMD_OTA = true) by reflexivity.
  destruct (mode_flags (quietInput []) setThenOta) as (H1 & H2 & H3 & _).
  specialize (H2 O). cbv zeta in H2. destruct H2 as (_ & Hp & _ & _ & _ & _ & He).
  split; [exact P|]. split; [exact O|]. split; [apply H1; exact P|].
  split; [rewrite Hp; exact P|]. split; [exact He|]. split; [exact C|].
  apply (H3 "elsewhere" (bytes "ota") C).
Defined.

(** * Further properties of the sketch *)

(** ** The command buffer *)

Lemma cstr_app_NUL_length (l : list ascii) :
  (String.length (cstr (l ++ [NUL])) <= List.length l)%nat.
Proof.
  induction l as [|a l IH]; cbn; [reflexivity|].
  destruct (Ascii.eqb a NUL); cbn; lia.
Qed.

Lemma cstr_noNul (l : list ascii) : noNul (cstr l) = true.
Proof.
  induction l as [|a l IH]; cbn; [reflexivity|].
  destruct (Ascii.eqb a NUL) eqn:E; cbn; [reflexivity|].
  now rewrite E, IH.
Qed.

Lemma cstr_app_NUL_id (l : list ascii) :
  Forall (fun c => c <> NUL) l ->
  cstr (l ++ [NUL]) = string_of_list_ascii l.
Proof.
  induction 1 as [|a l Ha _ IH]; cbn; [reflexivity|].
  destruct (Ascii.eqb_spec a NUL); [contradiction|]. now rewrite IH.
Qed.

(** The command string never exceeds the nine characters that fit
    [payloadCopy] before its terminator and holds no NUL; bytes after the
    ninth are ignored; a payload of at most nine bytes without NUL is
    taken as it is. *)
Theorem payloadCommand_bounds (payload : list ascii) :
  (String.length (payloadCommand payload) <= 9)%nat
  /\ noNul (payloadCommand payload) = true
  /\ (forall rest, (9 <= List.length payload)%nat ->
        payloadCommand (payload ++ rest) = payloadCommand payload)
  /\ ((List.length payload <= 9)%nat -> Forall (fun c => c <> NUL) payload ->
      payloadCommand payload = string_of_list_ascii payload).
Proof.
  rewrite payloadCommand_firstn.
  split; [|split; [|split]].
  - etransitivity; [apply cstr_app_NUL_length|].
    rewrite length_firstn. lia.
  - apply cstr_noNul.
  - intros rest H. rewrite payloadCommand_firstn.
    rewrite firstn_app.
    replace (9 - List.length payload)%nat with 0%nat by lia.
    cbn [firstn]. now rewrite app_nil_r.
  - intros H F. rewrite firstn_all2 by lia. now apply cstr_app_NUL_id.
Qed.

Lemma payloadCommand_bounds_witness :
  (9 <= List.length (bytes "rst please"))%nat
  /\ payloadCommand (bytes "rst please" ++ bytes " now") = "rst pleas"
  /\ payloadCommand (bytes "ota") = "ota".
Proof.
  assert (L : (9 <= List.length (bytes "rst please"))%nat) by (cbn; lia).
  assert (S : (List.length (bytes "ota") <= 9)%nat) by (cbn; lia).
  assert (F : Forall (fun c => c <> NUL) (bytes "ota"))
    by (repeat constructor; discriminate).
  destruct (payloadCommand_bounds (bytes "rst please")) as (_ & _ & H3 & _).
  destruct (payloadCommand_bounds (bytes "ota")) as (_ & _ & _ & H4).
  split; [exact L|]. split.
  - rewrite (H3 (bytes " now") L). reflexivity.
  - rewrite (H4 S F). reflexivity.
Defined.

(** ** Linear backoff *)

(** After [k] failed attempts in a row the delay is the former delay plus
    [k] seconds, capped at 60 s, and exactly [k] connection attempts were
    logged. *)
Theorem backoff_is_linear (inps : list Input) :
  forall st : State,
    delayInRange st -> allAttemptsFail inps st = true ->
    mqttConnectDelay (ticks inps st)
    = Z.min (mqttConnectDelay st + 1000 * Z.of_nat (List.length inps)) 60000
    /\ List.length (filter isConnect (events (ticks inps st)))
       = (List.length (filter isConnect (events st)) + List.length inps)%nat.
Proof.
  induction inps as [|i inps IH]; intros st Hd Hall.
  - unfold delayInRange in Hd. cbn. split; lia.
  - cbn [allAttemptsFail] in Hall.
    apply andb_prop in Hall as [Hall Hrest].
    apply andb_prop in Hall as [Hall Hfail].
    apply negb_true_iff in Hfail.
    assert (Ha : delayInRange (arrive i st)).
    { unfold arrive, delayInRange in *. destruct (linkLost i); exact Hd. }
    assert (Hdel : mqttConnectDelay (arrive i st) = mqttConnectDelay st).
    { unfold arrive. destruct (linkLost i); reflexivity. }
    assert (Hev : events (arrive i st) = events st).
    { unfold arrive. destruct (linkLost i); reflexivity. }
    pose proof (mqttReconnect_step (connectOk i) (arrive i st) Ha) as Hs.
    cbv zeta in Hs. rewrite Hall, Hfail in Hs.
    assert (Ht : tick i st = snd (mqttReconnect false (arrive i st)))
      by (unfold tick; now rewrite Hfail).
    rewrite Hs in Ht. cbn [snd] in Ht.
    destruct (IH (tick i st) (tick_delayInRange i st Hd) Hrest) as [IHd IHe].
    change (ticks (i :: inps) st) with (ticks inps (tick i st)).
    rewrite IHd, IHe, Ht. unfold delayInRange in Hd.
    cbn -[Z.min Z.of_nat Z.mul]. rewrite Hdel, Hev, filter_app, length_app.
    cbn -[Z.min Z.of_nat Z.mul]. split; lia.
Qed.

Lemma backoff_is_linear_witness :
  delayInRange powerOn
  /\ allAttemptsFail [failingTick; mkInput 2000 false false false false None true false []]
       powerOn = true
  /\ mqttConnectDelay
       (ticks [failingTick; mkInput 2000 false false false false None true false []]
          powerOn) = 2000.
Proof.
  assert (D : delayInRange powerOn) by (unfold delayInRange; cbn; lia).
  assert (A : allAttemptsFail
                [failingTick; mkInput 2000 false false false false None true false []]
                powerOn = true) by (vm_compute; reflexivity).
  split; [exact D|]. split; [exact A|].
  exact (proj1 (backoff_is_linear _ powerOn D A)).
Defined.

(** ** Timeouts of the two modes *)

Lemma manualSetup_mode_running (st : State) :
  wifiManagerSetupRunning st = true -> mode (manualSetup st) = mode st.
Proof.
  intros H. unfold manualSetup.
  destruct (usub _ _ <? MANUAL_SETUP_MAX_DELAY_MS); cbn -[Z.eqb int_wrap];
    [|reflexivity].
  destruct (_ =? MANUAL_SETUP_COUNTER); cbn -[int_wrap]; [|reflexivity].
  rewrite startWifiManager_guard by exact H. reflexivity.
Qed.

Lemma gpioLoop_mode_running (bl s1 s2 : bool) (st : State) :
  wifiManagerSetupRunning st = true -> mode (gpioLoop bl s1 s2 st) = mode st.
Proof.
  intros H. rewrite gpioLoop_unfold. cbv zeta.
  replace (if bl then startWifiManager OnDemandTrue st else st) with st
    by (destruct bl; [now rewrite startWifiManager_guard|reflexivity]).
  set (st2 := set_s2State s2 (set_s1State s1 st)).
  assert (H2 : mode st2 = mode st) by reflexivity. clearbody st2.
  set (st3 := if isEdge Ch1 s1 st then s1ChangedAction st2 else st2).
  assert (H3 : mode st3 = mode st).
  { subst st3. destruct (isEdge Ch1 s1 st); [|exact H2].
    now rewrite s1ChangedAction_relayOp, relayOp_mode. }
  clearbody st3.
  set (st4 := if isEdge Ch2 s2 st then s2ChangedAction st3 else st3).
  assert (H4 : mode st4 = mode st).
  { subst st4. destruct (isEdge Ch2 s2 st); [|exact H3].
    now rewrite s2ChangedAction_relayOp, relayOp_mode. }
  clearbody st4.
  destruct (_ || _); [|exact H4].
  rewrite manualSetup_mode_running; [exact H4|]. now rewrite H4.
Qed.

Lemma wifimanagerLoop_restart (saved : option PortalParams) (up : bool)
    (st : State) :
  restart (wifimanagerLoop saved up st)
  = (restart st
     || (match saved with Some _ => true | None => false end)
     || (wifiManagerSetupRunning st
         && (usub (millis st) (wifiManagerSetupStart st) >? CONFIG_TIMEOUT_MS))).
Proof.
  unfold wifimanagerLoop, millis.
  destruct st as [c g ge m q t ev]. destruct m as [run start ota otas rst led].
  destruct q as [off con att del].
  destruct saved as [p|]; cbn -[Z.gtb usub];
    destruct run; cbn -[Z.gtb usub];
    destruct (usub t start >? CONFIG_TIMEOUT_MS);
    destruct up, off, rst; reflexivity.
Qed.

(** While the portal is running and the device is not in update mode,
    a cycle that finds more than [CONFIG_TIMEOUT_MS] elapsed since the
    portal was opened ends with [ESP.restart()], whatever else happens in
    it; a cycle with nothing saved and no message that finds less, and
    the restart flag down, does not restart. *)
Theorem portal_timeout (inp : Input) (st : State) :
  otaRunning st = false ->
  wifiManagerSetupRunning st = true ->
  let late := usub (millis st) (wifiManagerSetupStart st) >? CONFIG_TIMEOUT_MS in
  (late = true -> snd (loop inp st) = true)
  /\ (late = false -> restart st = false -> portalSaved inp = None ->
      inbox inp = [] -> snd (loop inp st) = false).
Proof.
  intros Ho Hp late.
  pose proof (gpioLoop_mode_running (buttonLow inp) (s1Low inp) (s2Low inp) st Hp) as Hm.
  destruct (gpioLoop_frame (buttonLow inp) (s1Low inp) (s2Low inp) st)
    as (_ & _ & Ht & _).
  cbv zeta in Ht.
  unfold loop. cbn [snd]. rewrite Ho.
  set (st1 := gpioLoop _ _ _ st) in *. clearbody st1.
  pose proof (wifimanagerLoop_restart (portalSaved inp) (wifiUp inp) st1) as Hw.
  unfold millis in Hw. rewrite Hm, Ht, Hp in Hw. fold (millis st) in Hw.
  fold late in Hw. cbn [andb] in Hw.
  set (st2 := wifimanagerLoop (portalSaved inp) (wifiUp inp) st1) in *.
  clearbody st2.
  change (restart (mode (delay LOOP_DELAY_MS
                           (if negb (offline st2)
                            then mqttLoop (connectOk inp) (inbox inp) st2
                            else st2))))
    with (restart (mode (if negb (offline st2)
                         then mqttLoop (connectOk inp) (inbox inp) st2
                         else st2))).
  split.
  - intros Hl. rewrite Hl, orb_true_r in Hw.
    destruct (negb (offline st2)); [now apply mqttLoop_restart|exact Hw].
  - intros Hl Hr Hs Hi. rewrite Hl, Hr, Hs in Hw. cbn in Hw.
    destruct (negb (offline st2)); [|exact Hw].
    unfold mqttLoop. rewrite Hi.
    destruct (mqttReconnect_frame (connectOk inp) st2) as (_ & _ & _ & Hmm & _).
    cbv zeta in Hmm.
    destruct (mqttConnected st2); cbn [negb]; [exact Hw|].
    destruct (mqttReconnect (connectOk inp) st2) as [ok st3]. cbn [snd] in Hmm.
    destruct ok; cbn; rewrite Hmm; exact Hw.
Qed.

Lemma portal_timeout_witness :
  otaRunning portalOpen = false
  /\ wifiManagerSetupRunning portalOpen = true
  /\ snd (loop (quietInput []) (with_clock 400000 portalOpen)) = true
  /\ snd (loop (quietInput []) (with_clock 200000 portalOpen)) = false.
Proof.
  assert (O : forall t, otaRunning (with_clock t portalOpen) = false)
    by (intros t; vm_compute; reflexivity).
  assert (P : forall t, wifiManagerSetupRunning (with_clock t portalOpen) = true)
    by (intros t; vm_compute; reflexivity).
  split; [vm_compute; reflexivity|]. split; [vm_compute; reflexivity|]. split.
  - destruct (portal_timeout (quietInput []) (with_clock 400000 portalOpen)
                (O 400000) (P 400000)) as [H _].
    apply H. vm_compute. reflexivity.
  - destruct (portal_timeout (quietInput []) (with_clock 200000 portalOpen)
                (O 200000) (P 200000)) as [_ H].
    apply H; vm_compute; reflexivity.
Defined.



(** ** Stored configuration *)




(** Without a readable [/config.json], or with one in which every key is
    missing or empty, the boot keeps the built-in configuration and takes
    the access-point name as client name. *)
Theorem boot_without_stored_values (env : BootEnv) :
  (configJson env = None
   \/ exists json, configJson env = Some json
                   /\ forall k, json k = None \/ json k = Some "") ->
  config (boot env)
  = mkConfig "TiffanyAching.local" "1883" (apName env) "moist" "password"
      "ibnhouse/light/kitchen/sta1" "ibnhouse/light/kitchen/cmd1"
      "ibnhouse/light/kitchen/sta2" "ibnhouse/light/kitchen/cmd2"
      false false true.
Proof.
  intros H. unfold boot, setup, startWifiManager, readConfig.
  cbn -[ulong jsonStr jsonFlag].
  destruct H as [->|(json & -> & Hk)].
  - destruct (autoConnectOpensPortal env); reflexivity.
  - assert (S : forall k old, jsonStr json k old = old)
      by (intros k old; unfold jsonStr; destruct (Hk k) as [->| ->]; reflexivity).
    assert (F : forall k old, jsonFlag json k old = old)
      by (intros k old; unfold jsonFlag; destruct (Hk k) as [->| ->]; reflexivity).
    destruct (autoConnectOpensPortal env); cbn -[jsonStr jsonFlag];
      rewrite !S, !F; reflexivity.
Qed.

Lemma boot_without_stored_values_witness :
  config (boot plainBoot)
  = mkConfig "TiffanyAching.local" "1883" "Detritus-1a2b3c" "moist" "password"
      "ibnhouse/light/kitchen/sta1" "ibnhouse/light/kitchen/cmd1"
      "ibnhouse/light/kitchen/sta2" "ibnhouse/light/kitchen/cmd2"
      false false true.
Proof.
  exact (boot_without_stored_values plainBoot (or_introl eq_refl)).
Defined.

(** ** Saving the portal form *)





(** ** When messages are delivered, and what changes the relays *)

Lemma loop_undelivered (inp : Input) (st : State) :
  delivers inp st = false ->
  loop inp st = loop (withoutMessages inp) st.
Proof.
  intros Hd. unfold loop.
  destruct (otaRunning st) eqn:Ho; [reflexivity|].
  cbn [buttonLow s1Low s2Low portalSaved wifiUp connectOk inbox withoutMessages].
  destruct (gpioLoop_frame (buttonLow inp) (s1Low inp) (s2Low inp) st)
    as (_ & Hq & Ht & _).
  cbv zeta in Hq, Ht.
  set (st1 := gpioLoop _ _ _ st) in *. clearbody st1.
  destruct (wifimanagerLoop_frame (portalSaved inp) (wifiUp inp) st1)
    as (Hoff & Hcon & Hatt & Hdel & Hclk & _).
  cbv zeta in Hoff, Hcon, Hatt, Hdel, Hclk.
  set (st2 := wifimanagerLoop _ _ st1) in *. clearbody st2.
  cbv zeta.
  assert (E : (if negb (offline st2)
               then mqttLoop (connectOk inp) (inbox inp) st2 else st2)
              = (if negb (offline st2)
                 then mqttLoop (connectOk inp) [] st2 else st2)).
  { rewrite Hoff. unfold delivers in Hd. rewrite Ho in Hd. cbn [negb andb] in Hd.
    destruct (wifiUp inp); cbn [negb]; [|reflexivity].
    cbn [andb] in Hd. apply orb_false_iff in Hd as [Hc Hr].
    unfold mqttLoop. rewrite Hcon, Hq, Hc. cbn [negb].
    unfold mqttReconnect. rewrite Hcon, Hq, Hc. cbn [negb].
    unfold millis in *. rewrite Hclk, Ht, Hatt, Hdel, Hq.
    destruct (usub (clock st) (mqttConnectAttempt st) >? mqttConnectDelay st);
      [|reflexivity].
    rewrite andb_true_r in Hr. rewrite Hr. reflexivity. }
  rewrite E. reflexivity.
Qed.

(** Messages that arrive while the device is in update mode, offline, or
    disconnected without a successful reconnect in this cycle have no
    effect at all: the cycle runs as if nothing had arrived. *)
Theorem undelivered_messages_are_ignored (inp : Input) (st : State) :
  delivers inp (arrive inp st) = false ->
  cycle inp st = cycle (withoutMessages inp) st
  /\ events (fst (cycle inp st)) = events (fst (cycle (withoutMessages inp) st)).
Proof.
  intros Hd.
  assert (E : cycle inp st = cycle (withoutMessages inp) st).
  { unfold cycle. rewrite (loop_undelivered inp (arrive inp st) Hd). reflexivity. }
  split; [exact E|now rewrite E].
Qed.

Lemma undelivered_messages_are_ignored_witness :
  delivers (quietInput [("ibnhouse/light/kitchen/cmd1", bytes "1")])
    (arrive (quietInput [("ibnhouse/light/kitchen/cmd1", bytes "1")]) setThenOta)
  = false
  /\ cycle (quietInput [("ibnhouse/light/kitchen/cmd1", bytes "1")]) setThenOta
     = cycle (quietInput []) setThenOta.
Proof.
  assert (D : delivers (quietInput [("ibnhouse/light/kitchen/cmd1", bytes "1")])
                (arrive (quietInput [("ibnhouse/light/kitchen/cmd1", bytes "1")])
                   setThenOta) = false) by (vm_compute; reflexivity).
  split; [exact D|].
  exact (proj1 (undelivered_messages_are_ignored _ setThenOta D)).
Defined.

Lemma wifimanagerLoop_gpio (saved : option PortalParams) (up : bool) (st : State) :
  gpio (wifimanagerLoop saved up st) = gpio st
  /\ gesture (wifimanagerLoop saved up st) = gesture st.
Proof.
  unfold wifimanagerLoop.
  destruct saved as [p|]; cbn -[Z.gtb usub];
    repeat match goal with
      | |- context [if ?c then _ else _] => destruct c; cbn -[Z.gtb usub]
      end; split; reflexivity.
Qed.

Lemma gpioLoop_no_edge_gpio (bl s1 s2 : bool) (st : State) :
  isEdge Ch1 s1 st = false -> isEdge Ch2 s2 st = false ->
  gpio (gpioLoop bl s1 s2 st) = gpio st.
Proof.
  intros E1 E2. rewrite gpioLoop_unfold. cbv zeta. rewrite E1, E2.
  destruct (button_frame bl st) as (_ & Hg & _). cbv zeta in Hg.
  cbn. rewrite Hg.
  unfold isEdge, switchState in E1, E2.
  apply negb_false_iff, Bool.eqb_prop in E1.
  apply negb_false_iff, Bool.eqb_prop in E2.
  subst s1 s2. destruct (gpio st); reflexivity.
Qed.

Lemma mqttLoop_no_messages_gpio (ok : bool) (st : State) :
  gpio (mqttLoop ok [] st) = gpio st.
Proof.
  unfold mqttLoop.
  destruct (mqttReconnect_frame ok st) as (_ & Hg & _). cbv zeta in Hg.
  destruct (negb (mqttConnected st)); [|reflexivity].
  destruct (mqttReconnect ok st) as [res st1]. cbn [snd] in Hg.
  destruct res; exact Hg.
Qed.

Lemma quiet_cycle_gpio (inp : Input) (st : State) :
  isEdge Ch1 (s1Low inp) st = false -> isEdge Ch2 (s2Low inp) st = false ->
  inbox inp = [] ->
  gpio (fst (cycle inp st)) = gpio st.
Proof.
  intros H1 H2 Hi. unfold cycle, loop. cbn [fst].
  assert (Hg : gpio (arrive inp st) = gpio st)
    by (unfold arrive; destruct (linkLost inp); reflexivity).
  set (st0 := arrive inp st) in *. clearbody st0.
  destruct (otaRunning st0).
  - destruct (_ >? OTA_TIMEOUT_MS); exact Hg.
  - rewrite Hi.
    assert (G1 : gpio (gpioLoop (buttonLow inp) (s1Low inp) (s2Low inp) st0)
                 = gpio st).
    { rewrite gpioLoop_no_edge_gpio;
        [exact Hg
        |unfold isEdge, switchState in *; rewrite Hg; assumption
        |unfold isEdge, switchState in *; rewrite Hg; assumption]. }
    set (st1 := gpioLoop _ _ _ st0) in *. clearbody st1.
    assert (G2 : gpio (wifimanagerLoop (portalSaved inp) (wifiUp inp) st1) = gpio st)
      by (rewrite (proj1 (wifimanagerLoop_gpio _ _ _)); exact G1).
    set (st2 := wifimanagerLoop _ _ st1) in *. clearbody st2.
    change (gpio (if negb (offline st2)
                  then mqttLoop (connectOk inp) [] st2 else st2) = gpio st).
    destruct (negb (offline st2)); rewrite ?mqttLoop_no_messages_gpio; exact G2.
Qed.

(** Relays, relay pins and stored switch states change only through a
    switch edge or a delivered message: a cycle that samples the switches
    where they were and delivers no message leaves them all as they
    were, whatever the button, the portal, WiFi and the broker do. *)
Theorem relays_do_not_change_spontaneously (inp : Input) (st : State) :
  isEdge Ch1 (s1Low inp) st = false -> isEdge Ch2 (s2Low inp) st = false ->
  inbox inp = [] \/ delivers inp (arrive inp st) = false ->
  gpio (fst (cycle inp st)) = gpio st.
Proof.
  intros E1 E2 [Hm|Hm].
  - now apply quiet_cycle_gpio.
  - unfold cycle. rewrite (loop_undelivered inp (arrive inp st) Hm).
    apply (quiet_cycle_gpio (withoutMessages inp) st E1 E2 eq_refl).
Qed.

Lemma relays_do_not_change_spontaneously_witness :
  let inp := mkInput 25 true true false false None false false
               [("ibnhouse/light/kitchen/cmd1", bytes "1")] in
  isEdge Ch1 (s1Low inp) onlineState = false
  /\ isEdge Ch2 (s2Low inp) onlineState = false
  /\ delivers inp (arrive inp onlineState) = false
  /\ gpio (fst (cycle inp onlineState)) = gpio onlineState.
Proof.
  cbv zeta.
  assert (E1 : isEdge Ch1 false onlineState = false) by (vm_compute; reflexivity).
  assert (E2 : isEdge Ch2 false onlineState = false) by (vm_compute; reflexivity).
  assert (D : delivers
                (mkInput 25 true true false false None false false
                   [("ibnhouse/light/kitchen/cmd1", bytes "1")])
                (arrive
                   (mkInput 25 true true false false None false false
                      [("ibnhouse/light/kitchen/cmd1", bytes "1")]) onlineState)
              = false) by (vm_compute; reflexivity).
  split; [exact E1|]. split; [exact E2|]. split; [exact D|].
  exact (relays_do_not_change_spontaneously
           (mkInput 25 true true false false None false false
              [("ibnhouse/light/kitchen/cmd1", bytes "1")])
           onlineState E1 E2 (or_intror D)).
Defined.

Lemma boot_gpio (env : BootEnv) :
  gpio (boot env) = mkGpio (bootS1Low env) (bootS2Low env) false false false false.
Proof.
  unfold boot, setup, startWifiManager, readConfig. cbn -[ulong].
  destruct (autoConnectOpensPortal env), (configJson env); reflexivity.
Qed.

(** The switch positions found at power-on do not count as edges: both
    relays are off after boot whatever the switches and the stored policy
    are, and they stay off through every following cycle in which the
    switches are sampled where they were at boot and no message is
    delivered. *)
Theorem relays_stay_off_after_boot (env : BootEnv) (inp : Input) :
  s1Low inp = bootS1Low env -> s2Low inp = bootS2Low env ->
  inbox inp = [] ->
  gpio (boot env) = mkGpio (bootS1Low env) (bootS2Low env) false false false false
  /\ gpio (fst (cycle inp (boot env))) = gpio (boot env).
Proof.
  intros H1 H2 Hi. split; [apply boot_gpio|].
  apply quiet_cycle_gpio; [| |exact Hi];
    unfold isEdge, switchState; rewrite boot_gpio; cbn;
    rewrite ?H1, ?H2, Bool.eqb_reflx; reflexivity.
Qed.

Lemma relays_stay_off_after_boot_witness :
  let env := mkBootEnv "Detritus-1a2b3c" None false true false 1000 in
  let inp := mkInput 50 false false true false None true true [] in
  s1Low inp = bootS1Low env /\ s2Low inp = bootS2Low env /\ inbox inp = []
  /\ l1State (fst (cycle inp (boot env))) = false.
Proof.
  cbv zeta.
  split; [reflexivity|]. split; [reflexivity|]. split; [reflexivity|].
  destruct (relays_stay_off_after_boot
              (mkBootEnv "Detritus-1a2b3c" None false true false 1000)
              (mkInput 50 false false true false None true true [])
              eq_refl eq_refl eq_refl) as [B C].
  rewrite C, B. reflexivity.
Defined.

(** ** Invariants of the running loop *)

(** A property of the state that every elementary step of the sketch
    preserves is preserved by a whole cycle, and holds in every state of
    the running loop once it holds after boot. *)
Section CycleInvariant.

Variable P : State -> Prop.

Hypothesis P_relayOp : forall r on st, P st -> P (relayOp r on st).
Hypothesis P_portal : forall st, P st -> P (startWifiManager OnDemandTrue st).
Hypothesis P_s1 : forall v st, P st -> P (set_s1State v st).
Hypothesis P_s2 : forall v st, P st -> P (set_s2State v st).
Hypothesis P_counter : forall n st, P st -> P (set_manualSetupModeCounter n st).
Hypothesis P_time : forall t st, P st -> P (set_manualSetupActivatorTime t st).
Hypothesis P_save : forall p st, P st -> P (saveParamsCallback p st).
Hypothesis P_emit : forall e st,
    isPortalStart e = false -> isPublish e = false -> P st -> P (emit e st).
Hypothesis P_restart : forall st, P st -> P (set_restart true st).
Hypothesis P_offline : forall v st, P st -> P (set_offline v st).
Hypothesis P_connected : forall v st, P st -> P (set_mqttConnected v st).
Hypothesis P_ota : forall st, P st -> P (otaEnter st).
Hypothesis P_reconnect : forall ok st, P st -> P (snd (mqttReconnect ok st)).
Hypothesis P_clock : forall t st, P st -> P (with_clock t st).
Hypothesis P_boot : forall env, P (boot env).

Lemma manualSetup_preserves (st : State) : P st -> P (manualSetup st).
Proof.
  intros H. unfold manualSetup. cbv zeta. apply P_time.
  destruct (_ <? MANUAL_SETUP_MAX_DELAY_MS); [|now apply P_counter].
  destruct (_ =? MANUAL_SETUP_COUNTER); [apply P_portal|]; now apply P_counter.
Qed.

Lemma gpioLoop_preserves (bl s1 s2 : bool) (st : State) :
  P st -> P (gpioLoop bl s1 s2 st).
Proof.
  intros H. rewrite gpioLoop_unfold. cbv zeta.
  assert (H0 : P (if bl then startWifiManager OnDemandTrue st else st))
    by (destruct bl; [now apply P_portal|exact H]).
  set (st0 := if bl then startWifiManager OnDemandTrue st else st) in *.
  clearbody st0.
  assert (H2 : P (set_s2State s2 (set_s1State s1 st0))) by now apply P_s2, P_s1.
  set (st2 := set_s2State s2 (set_s1State s1 st0)) in *. clearbody st2.
  assert (H3 : P (if isEdge Ch1 s1 st then s1ChangedAction st2 else st2)).
  { destruct (isEdge Ch1 s1 st); [|exact H2].
    rewrite s1ChangedAction_relayOp. now apply P_relayOp. }
  set (st3 := if isEdge Ch1 s1 st then s1ChangedAction st2 else st2) in *.
  clearbody st3.
  assert (H4 : P (if isEdge Ch2 s2 st then s2ChangedAction st3 else st3)).
  { destruct (isEdge Ch2 s2 st); [|exact H3].
    rewrite s2ChangedAction_relayOp. now apply P_relayOp. }
  set (st4 := if isEdge Ch2 s2 st then s2ChangedAction st3 else st3) in *.
  clearbody st4.
  destruct (_ || _); [now apply manualSetup_preserves|exact H4].
Qed.

Lemma wifimanagerLoop_preserves (saved : option PortalParams) (up : bool)
    (st : State) :
  P st -> P (wifimanagerLoop saved up st).
Proof.
  intros H. unfold wifimanagerLoop. cbv zeta.
  assert (H1 : P (match saved with
                  | Some p => saveParamsCallback p st
                  | None => st
                  end)) by (destruct saved; [now apply P_save|exact H]).
  set (st1 := match saved with Some p => saveParamsCallback p st | None => st end)
    in *.
  clearbody st1.
  assert (H2 : P (if wifiManagerSetupRunning st1
                  then if usub (millis st1) (wifiManagerSetupStart st1)
                          >? CONFIG_TIMEOUT_MS
                       then wifiManagerSetupStopped (emit EvStopConfigPortal st1)
                       else st1
                  else st1)).
  { destruct (wifiManagerSetupRunning st1); [|exact H1].
    destruct (_ >? CONFIG_TIMEOUT_MS); [|exact H1].
    unfold wifiManagerSetupStopped. now apply P_restart, P_emit. }
  match goal with
  | H2 : P ?X |- _ => set (st2 := X) in *; clearbody st2
  end.
  destruct up; [|now apply P_offline].
  apply P_offline. destruct (offline st2); [now apply P_emit|exact H2].
Qed.

Lemma mqttCallback_preserves (topic : string) (payload : list ascii) (st : State) :
  P st -> P (mqttCallback topic payload st).
Proof.
  intros H. rewrite mqttCallback_cases. cbv zeta.
  change (enableL1 st) with (relayOp Ch1 true st).
  change (disableL1 st) with (relayOp Ch1 false st).
  change (enableL2 st) with (relayOp Ch2 true st).
  change (disableL2 st) with (relayOp Ch2 false st).
  repeat match goal with
    | |- context [if ?c then _ else _] => destruct c
    end;
    first [ exact H | now apply P_portal | now apply P_restart
          | now apply P_ota | now apply P_relayOp ].
Qed.

Lemma clientLoop_preserves (inbox : list (string * list ascii)) :
  forall st : State, P st -> P (clientLoop inbox st).
Proof.
  induction inbox as [|m inbox IH]; intros st H; [exact H|].
  cbn. now apply IH, mqttCallback_preserves.
Qed.

Lemma mqttLoop_preserves (ok : bool) (inbox : list (string * list ascii))
    (st : State) :
  P st -> P (mqttLoop ok inbox st).
Proof.
  intros H. unfold mqttLoop.
  destruct (negb (mqttConnected st)); [|now apply clientLoop_preserves].
  pose proof (P_reconnect ok st H) as Hr.
  destruct (mqttReconnect ok st) as [res st1]. cbn [snd] in Hr.
  destruct res; cbn [negb]; [now apply clientLoop_preserves|exact Hr].
Qed.

Lemma loop_preserves (inp : Input) (st : State) : P st -> P (fst (loop inp st)).
Proof.
  intros H. unfold loop. cbn [fst].
  destruct (otaRunning st).
  - cbv zeta. assert (H1 : P (emit EvOtaHandle st)) by now apply P_emit.
    destruct (_ >? OTA_TIMEOUT_MS); [now apply P_restart|exact H1].
  - cbv zeta. unfold delay. apply P_clock.
    pose proof (gpioLoop_preserves (buttonLow inp) (s1Low inp) (s2Low inp) st H)
      as H1.
    set (st1 := gpioLoop _ _ _ st) in *. clearbody st1.
    pose proof (wifimanagerLoop_preserves (portalSaved inp) (wifiUp inp) st1 H1)
      as H2.
    set (st2 := wifimanagerLoop _ _ st1) in *. clearbody st2.
    destruct (negb (offline st2)); [now apply mqttLoop_preserves|exact H2].
Qed.

Lemma cycle_preserves (inp : Input) (st : State) : P st -> P (fst (cycle inp st)).
Proof.
  intros H. unfold cycle. apply loop_preserves. unfold arrive. cbv zeta.
  destruct (linkLost inp); [apply P_connected|]; now apply P_clock.
Qed.

Lemma reachable_invariant (st : State) : reachable st -> P st.
Proof.
  induction 1 as [env|st inp _ IH _]; [apply P_boot|now apply cycle_preserves].
Qed.

End CycleInvariant.

Lemma mqttReconnect_mode_gpio (ok : bool) (st : State) :
  gpio (snd (mqttReconnect ok st)) = gpio st
  /\ mode (snd (mqttReconnect ok st)) = mode st.
Proof.
  destruct (mqttReconnect_frame ok st) as (_ & Hg & _ & Hm & _).
  split; assumption.
Qed.

(** In every state of the running loop each relay pin is driven to the
    level its state variable records. *)
Theorem relay_pins_follow_state (st : State) : reachable st -> pinsMatch st.
Proof.
  apply reachable_invariant; unfold pinsMatch; try (intros; cbn; assumption).
  - intros r on s [H1 H2].
    destruct (relayOp_spec r on s) as (_ & _ & _ & _ & _ & _ & _ & Hr & Hp & Ho & Hq & _).
    cbv zeta in *. destruct r; cbn [relayState relayPin other] in *; split; congruence.
  - intros s H.
    destruct (startWifiManager_onDemand_frame s) as (_ & Hg & _).
    now rewrite Hg.
  - intros ok s H. now rewrite (proj1 (mqttReconnect_mode_gpio ok s)).
  - intros env. rewrite boot_gpio. split; reflexivity.
Qed.

Lemma portalEntries_emit (e : Event) (st : State) :
  portalEntries (emit e st)
  = (portalEntries st + if isPortalStart e then 1 else 0)%nat.
Proof.
  unfold portalEntries. cbn. rewrite filter_app, length_app. cbn.
  destruct (isPortalStart e); reflexivity.
Qed.

(** In every state of the running loop the portal has been opened at
    most once since boot: once if the portal flag is set, never if it is
    clear.  Button, gesture, "set" commands and the boot itself never
    open it a second time. *)
Theorem portal_opened_at_most_once (st : State) : reachable st -> portalOnce st.
Proof.
  apply reachable_invariant; unfold portalOnce;
    try (intros; cbn; assumption).
  - intros r on s H.
    destruct (relayOp_spec r on s) as (_ & _ & Hm & _ & _ & _ & _ & _ & _ & _ & _ & He).
    cbv zeta in *. unfold portalEntries in *. rewrite Hm, He, filter_app, length_app.
    destruct (busUp s); cbn; lia.
  - intros s H. unfold startWifiManager.
    destruct (wifiManagerSetupRunning s) eqn:E; [now rewrite E|].
    unfold startConfigPortal, wifiManagerSetupStarted. cbn.
    unfold portalEntries in *. cbn. rewrite filter_app, length_app, H. reflexivity.
  - intros p s H. unfold saveParamsCallback, wifiManagerSetupStopped. cbn.
    unfold portalEntries in *. cbn. rewrite filter_app, length_app, H. cbn. lia.
  - intros e s He _ H. rewrite portalEntries_emit, He. cbn. lia.
  - intros s H. unfold otaEnter. cbn.
    unfold portalEntries in *. cbn. rewrite filter_app, length_app, H. cbn. lia.
  - intros ok s H.
    rewrite (proj2 (mqttReconnect_mode_gpio ok s)).
    unfold portalEntries in *. rewrite mqttReconnect_events, filter_app, length_app.
    cbv zeta. destruct (negb _ && _), ok; cbn; lia.
  - intros env. unfold boot, setup, startWifiManager, readConfig. cbn -[ulong].
    destruct (autoConnectOpensPortal env), (configJson env); reflexivity.
Qed.

Lemma statusText_forms (a b c : bool) :
  statusText a b c = "0" \/ statusText a b c = "1"
  \/ statusText a b c = "0." \/ statusText a b c = "1.".
Proof. destruct a, b, c; cbn; tauto. Qed.

(** Everything the device has ever published since boot was published
    retained and is one of the texts "0", "1", "0." and "1.". *)
Theorem publications_are_well_formed (st : State) :
  reachable st -> Forall wellFormedEvent (events st).
Proof.
  apply (reachable_invariant (fun s : State => Forall wellFormedEvent (events s)));
    try (intros; cbn; assumption).
  - intros r on s H.
    destruct (relayOp_spec r on s) as (_ & _ & _ & _ & _ & _ & _ & _ & _ & _ & _ & He).
    cbv zeta in He. rewrite He. apply Forall_app. split; [exact H|].
    destruct (busUp s); constructor; [|constructor].
    split; [reflexivity|apply statusText_forms].
  - intros s H. rewrite startWifiManager_onDemand_events.
    apply Forall_app. split; [exact H|].
    destruct (wifiManagerSetupRunning s); repeat constructor.
  - intros p s H. unfold saveParamsCallback, wifiManagerSetupStopped. cbn.
    apply Forall_app. split; [exact H|repeat constructor].
  - intros e s _ Hp H. cbn. apply Forall_app. split; [exact H|].
    constructor; [|constructor]. destruct e; try exact I. discriminate.
  - intros s H. unfold otaEnter. cbn.
    apply Forall_app. split; [exact H|repeat constructor].
  - intros ok s H. rewrite mqttReconnect_events. cbv zeta.
    apply Forall_app. split; [exact H|].
    destruct (negb _ && _), ok; repeat constructor.
  - intros env. unfold boot, setup, startWifiManager, readConfig. cbn -[ulong].
    destruct (autoConnectOpensPortal env), (configJson env); repeat constructor.
Qed.

(** ** One pass of the sampler, in closed form *)

Lemma relayOp_publications (r : Channel) (on : bool) (st : State) :
  publications (relayOp r on st)
  = publications st ++
    (if busUp st then
       [EvPublish (outTopic r st)
          (statusText on (switchState (mapped r st) st) (invertSwitch st)) true]
     else []).
Proof.
  destruct (relayOp_spec r on st) as (_ & _ & _ & _ & _ & _ & _ & _ & _ & _ & _ & He).
  cbv zeta in He. rewrite (publications_app st _ _ He).
  destruct (busUp st); reflexivity.
Qed.

Lemma gpioLoop_closed (bl s1 s2 : bool) (st : State) :
  let st' := gpioLoop bl s1 s2 st in
  relayState (mapped Ch1 st) st'
  = (if isEdge Ch1 s1 st then decision Ch1 s1 st else relayState (mapped Ch1 st) st)
  /\ relayState (mapped Ch2 st) st'
     = (if isEdge Ch2 s2 st then decision Ch2 s2 st
        else relayState (mapped Ch2 st) st)
  /\ publications st'
     = publications st ++ edgeReport Ch1 s1 st ++ edgeReport Ch2 s2 st.
Proof.
  cbv zeta. rewrite gpioLoop_unfold. cbv zeta.
  destruct (button_frame bl st) as (Hc0 & Hg0 & Hq0 & _). cbv zeta in Hc0, Hg0, Hq0.
  assert (Hp0 : publications (if bl then startWifiManager OnDemandTrue st else st)
                = publications st).
  { destruct bl; [|reflexivity].
    rewrite (publications_app st _ _ (startWifiManager_onDemand_events st)).
    destruct (wifiManagerSetupRunning st); cbn; now rewrite app_nil_r. }
  set (st0 := if bl then startWifiManager OnDemandTrue st else st) in *.
  clearbody st0.
  set (st2 := set_s2State s2 (set_s1State s1 st0)).
  assert (Hc2 : config st2 = config st) by exact Hc0.
  assert (Hq2 : mqtt st2 = mqtt st) by exact Hq0.
  assert (Hp2 : publications st2 = publications st) by exact Hp0.
  assert (Hg2 : gpio st2 = mkGpio s1 s2 (l1State st) (l2State st)
                             (pinRELAY_L1 st) (pinRELAY_L2 st))
    by (subst st2; cbn; rewrite Hg0; reflexivity).
  clearbody st2. clear Hc0 Hg0 Hq0 Hp0 st0.
  (* first block *)
  set (st3 := if isEdge Ch1 s1 st then s1ChangedAction st2 else st2).
  assert (Hc3 : config st3 = config st).
  { subst st3. destruct (isEdge Ch1 s1 st); [|exact Hc2].
    now rewrite s1ChangedAction_config. }
  assert (Hq3 : mqtt st3 = mqtt st).
  { subst st3. destruct (isEdge Ch1 s1 st); [|exact Hq2].
    rewrite s1ChangedAction_relayOp.
    destruct (relayOp_spec (mapped Ch1 st2) (decided Ch1 st2) st2)
      as (_ & _ & _ & Hq & _).
    cbv zeta in Hq. now rewrite Hq. }
  assert (Hd1 : decided Ch1 st2 = decision Ch1 s1 st).
  { unfold decided, decision, mapped, relayState, switchState.
    rewrite Hc2, Hg2. destruct (swapRelays st); reflexivity. }
  assert (Hp3 : publications st3 = publications st ++ edgeReport Ch1 s1 st).
  { subst st3. unfold edgeReport.
    destruct (isEdge Ch1 s1 st); cbn [andb]; [|now rewrite app_nil_r].
    rewrite s1ChangedAction_relayOp, relayOp_publications, Hp2, Hd1.
    unfold busUp. rewrite Hq2. fold (busUp st).
    unfold outTopic, mapped, switchState. rewrite Hc2, Hg2.
    destruct (swapRelays st); reflexivity. }
  assert (Hg3 : gpio st3
                = if isEdge Ch1 s1 st then
                    if swapRelays st
                    then mkGpio s1 s2 (l1State st) (decision Ch1 s1 st)
                           (pinRELAY_L1 st) (decision Ch1 s1 st)
                    else mkGpio s1 s2 (decision Ch1 s1 st) (l2State st)
                           (decision Ch1 s1 st) (pinRELAY_L2 st)
                  else mkGpio s1 s2 (l1State st) (l2State st)
                         (pinRELAY_L1 st) (pinRELAY_L2 st)).
  { subst st3. destruct (isEdge Ch1 s1 st); [|exact Hg2].
    rewrite s1ChangedAction_gpio, Hd1, Hc2, Hg2. reflexivity. }
  clearbody st3. clear Hc2 Hq2 Hp2 Hg2 Hd1 st2.
  (* second block *)
  set (st4 := if isEdge Ch2 s2 st then s2ChangedAction st3 else st3).
  assert (Hd2 : decided Ch2 st3 = decision Ch2 s2 st).
  { unfold decided, decision, mapped, relayState, switchState.
    rewrite Hc3, Hg3.
    destruct (isEdge Ch1 s1 st), (swapRelays st); reflexivity. }
  assert (Hp4 : publications st4
                = publications st ++ edgeReport Ch1 s1 st ++ edgeReport Ch2 s2 st).
  { subst st4. unfold edgeReport at 2.
    destruct (isEdge Ch2 s2 st); cbn [andb]; [|now rewrite app_nil_r].
    rewrite s2ChangedAction_relayOp, relayOp_publications, Hp3, Hd2, <- app_assoc.
    unfold busUp. rewrite Hq3. fold (busUp st).
    unfold outTopic, mapped, switchState. rewrite Hc3, Hg3.
    destruct (isEdge Ch1 s1 st), (swapRelays st); reflexivity. }
  assert (Hg4 : relayState (mapped Ch1 st) st4
                = (if isEdge Ch1 s1 st then decision Ch1 s1 st
                   else relayState (mapped Ch1 st) st)
                /\ relayState (mapped Ch2 st) st4
                   = (if isEdge Ch2 s2 st then decision Ch2 s2 st
                      else relayState (mapped Ch2 st) st)).
  { subst st4. unfold relayState, mapped.
    destruct (isEdge Ch2 s2 st);
      rewrite ?s2ChangedAction_gpio, ?Hd2, ?Hc3, Hg3;
      destruct (isEdge Ch1 s1 st), (swapRelays st); split; reflexivity. }
  clearbody st4.
  destruct (isEdge Ch1 s1 st || isEdge Ch2 s2 st).
  - unfold relayState in *. rewrite manualSetup_gpio.
    rewrite (publications_app st4 _ _ (manualSetup_events st4)).
    destruct Hg4 as [G1 G2]. split; [exact G1|]. split; [exact G2|].
    destruct (gestureFires st4 && negb (wifiManagerSetupRunning st4)); cbn;
      rewrite app_nil_r; exact Hp4.
  - destruct Hg4 as [G1 G2]. split; [exact G1|]. split; [exact G2|exact Hp4].
Qed.

(** One pass of [gpioLoop] publishes exactly one status per switch edge
    when the bus is up, switch 1 first: on the output topic of the relay
    the switch is mapped to, carrying that relay's new state and the new
    position of the switch; nothing is published for a switch that did
    not move, and button and gesture publish nothing.  Under
    [respectSwitchState] the text is always "1." or "0": the digit and
    the dot agree. *)
Theorem switch_edges_are_reported (bl s1 s2 : bool) (st : State) :
  let st' := gpioLoop bl s1 s2 st in
  let report (s : Channel) :=
    if isEdge s (levelOf s s1 s2) st && busUp st then
      [EvPublish (outTopic (mapped s st) st)
         (statusText (relayState (mapped s st) st') (levelOf s s1 s2)
            (invertSwitch st)) true]
    else [] in
  publications st' = publications st ++ report Ch1 ++ report Ch2
  /\ (respectSwitchState st = true ->
      forall s, isEdge s (levelOf s s1 s2) st = true ->
        statusText (relayState (mapped s st) st') (levelOf s s1 s2) (invertSwitch st)
        = if xorb (levelOf s s1 s2) (invertSwitch st) then "1." else "0").
Proof.
  cbv zeta.
  destruct (gpioLoop_closed bl s1 s2 st) as (G1 & G2 & Hp). cbv zeta in G1, G2, Hp.
  split.
  - rewrite Hp. unfold edgeReport. cbn [levelOf].
    rewrite G1, G2.
    destruct (isEdge Ch1 s1 st), (isEdge Ch2 s2 st); reflexivity.
  - intros Hr s He.
    assert (G : relayState (mapped s st) (gpioLoop bl s1 s2 st)
                = xorb (levelOf s s1 s2) (invertSwitch st)).
    { destruct s; cbn [levelOf] in *; rewrite ?G1, ?G2, He;
        unfold decision; now rewrite Hr. }
    rewrite G. unfold statusText.
    destruct (levelOf s s1 s2), (invertSwitch st); reflexivity.
Qed.

Lemma switch_edges_are_reported_witness :
  respectSwitchState onlineState = true
  /\ isEdge Ch1 true onlineState = true
  /\ publications (gpioLoop false true false onlineState)
     = [EvPublish "ibnhouse/light/kitchen/sta1" "1." true].
Proof.
  assert (R : respectSwitchState onlineState = true) by (vm_compute; reflexivity).
  assert (E : isEdge Ch1 (levelOf Ch1 true false) onlineState = true)
    by (vm_compute; reflexivity).
  pose proof (switch_edges_are_reported false true false onlineState) as H.
  cbv zeta in H. destruct H as [Hp Ht]. specialize (Ht R Ch1 E).
  split; [exact R|]. split; [exact E|].
  rewrite Hp. cbn [levelOf] in *. rewrite Ht. vm_compute. reflexivity.
Defined.

(** With [respectSwitchState] off every edge toggles, so pressing and
    releasing a switch in two successive passes brings the relay it is
    mapped to back to the state it had before, whatever the other switch
    and the button do meanwhile. *)
Theorem press_and_release_toggles_twice (s : Channel)
    (bl s1 s2 bl' s1' s2' : bool) (st : State) :
  respectSwitchState st = false ->
  let st1 := gpioLoop bl s1 s2 st in
  let st2 := gpioLoop bl' s1' s2' st1 in
  isEdge s (levelOf s s1 s2) st = true ->
  isEdge s (levelOf s s1' s2') st1 = true ->
  relayState (mapped s st) st1 = negb (relayState (mapped s st) st)
  /\ relayState (mapped s st) st2 = relayState (mapped s st) st.
Proof.
  intros Hr st1 st2 E1 E2.
  destruct (gpioLoop_frame bl s1 s2 st) as (Hc & _). cbv zeta in Hc. fold st1 in Hc.
  destruct (gpioLoop_closed bl s1 s2 st) as (A1 & A2 & _).
  destruct (gpioLoop_closed bl' s1' s2' st1) as (B1 & B2 & _).
  cbv zeta in *. fold st1 in A1, A2, B1, B2. fold st2 in B1, B2.
  assert (Hm : forall c, mapped c st1 = mapped c st)
    by (intros c; unfold mapped; now rewrite Hc).
  unfold decision in *. rewrite !Hm, Hc in B1, B2. rewrite Hr in *.
  destruct s; cbn [levelOf] in E1, E2.
  - rewrite E1 in A1. rewrite E2 in B1. rewrite B1, A1.
    split; [reflexivity|apply negb_involutive].
  - rewrite E1 in A2. rewrite E2 in B2. rewrite B2, A2.
    split; [reflexivity|apply negb_involutive].
Qed.

Lemma press_and_release_toggles_twice_witness :
  let st := with_config
              (mkConfig "" "" "" "" "" "sta1" "cmd1" "sta2" "cmd2" true false false)
              onlineState in
  respectSwitchState st = false
  /\ isEdge Ch1 (levelOf Ch1 true false) st = true
  /\ isEdge Ch1 (levelOf Ch1 false false) (gpioLoop false true false st) = true
  /\ relayState (mapped Ch1 st)
       (gpioLoop false false false (gpioLoop false true false st))
     = relayState (mapped Ch1 st) st.
Proof.
  cbv zeta.
  set (st := with_config
               (mkConfig "" "" "" "" "" "sta1" "cmd1" "sta2" "cmd2" true false false)
               onlineState).
  assert (R : respectSwitchState st = false) by (vm_compute; reflexivity).
  assert (E1 : isEdge Ch1 (levelOf Ch1 true false) st = true)
    by (vm_compute; reflexivity).
  assert (E2 : isEdge Ch1 (levelOf Ch1 false false) (gpioLoop false true false st)
               = true) by (vm_compute; reflexivity).
  destruct (press_and_release_toggles_twice Ch1 false true false false false false
              st R E1 E2) as [_ H2].
  split; [exact R|]. split; [exact E1|]. split; [exact E2|exact H2].
Defined.

(** ** The gesture counter over a pass *)

Lemma relayOp_gesture_clock (r : Channel) (on : bool) (st : State) :
  gesture (relayOp r on st) = gesture st /\ clock (relayOp r on st) = clock st.
Proof.
  destruct (relayOp_spec r on st) as (_ & Hg & _ & _ & Ht & _). split; assumption.
Qed.

(** A pass of [gpioLoop] counts as one gesture step when at least one
    switch moved, however many did: the time of the pass is recorded and
    the counter is incremented after a gap below 500 ms and cleared
    otherwise.  A pass without an edge leaves time and counter alone,
    also when the button is pressed. *)
Theorem gesture_counts_passes (bl s1 s2 : bool) (st : State) :
  let gap := usub (millis st) (manualSetupActivatorTime st) in
  gesture (gpioLoop bl s1 s2 st)
  = if isEdge Ch1 s1 st || isEdge Ch2 s2 st then
      mkGesture (millis st)
        (if gap <? MANUAL_SETUP_MAX_DELAY_MS
         then int_wrap (manualSetupModeCounter st + 1) else 0)
    else gesture st.
Proof.
  cbv zeta. rewrite gpioLoop_unfold. cbv zeta.
  destruct (startWifiManager_onDemand_frame st) as (_ & _ & Hge & _ & Ht & _).
  set (st0 := if bl then startWifiManager OnDemandTrue st else st).
  assert (H0 : gesture st0 = gesture st /\ clock st0 = clock st)
    by (subst st0; destruct bl; split; auto).
  set (st2 := set_s2State s2 (set_s1State s1 st0)).
  assert (H2 : gesture st2 = gesture st /\ clock st2 = clock st) by exact H0.
  clearbody st2. clear H0 st0 Hge Ht.
  set (st3 := if isEdge Ch1 s1 st then s1ChangedAction st2 else st2).
  assert (H3 : gesture st3 = gesture st /\ clock st3 = clock st).
  { subst st3. destruct (isEdge Ch1 s1 st); [|exact H2].
    rewrite s1ChangedAction_relayOp.
    destruct (relayOp_gesture_clock (mapped Ch1 st2) (decided Ch1 st2) st2) as [A B].
    rewrite A, B. exact H2. }
  clearbody st3. clear H2 st2.
  set (st4 := if isEdge Ch2 s2 st then s2ChangedAction st3 else st3).
  assert (H4 : gesture st4 = gesture st /\ clock st4 = clock st).
  { subst st4. destruct (isEdge Ch2 s2 st); [|exact H3].
    rewrite s2ChangedAction_relayOp.
    destruct (relayOp_gesture_clock (mapped Ch2 st3) (decided Ch2 st3) st3) as [A B].
    rewrite A, B. exact H3. }
  clearbody st4. clear H3 st3. destruct H4 as [Hg Hc].
  destruct (_ || _); [|exact Hg].
  pose proof (manualSetup_gesture st4) as G. cbv zeta in G.
  rewrite G. unfold millis. rewrite Hc, Hg. reflexivity.
Qed.

(** ** Commands against switches *)

Lemma clientLoop_app (a b : list (string * list ascii)) (st : State) :
  clientLoop (a ++ b) st = clientLoop b (clientLoop a st).
Proof. unfold clientLoop. apply fold_left_app. Qed.

(** In a cycle that delivers its messages, the last message decides when
    it is an on/off command on the command topic of channel [r]: at the
    end of the cycle the relay of [r] is in the commanded state and its
    pin at that level, whatever the switch edges of the same cycle and
    the earlier messages did. *)
Theorem last_command_wins (r : Channel) (on : bool) (inp : Input)
    (earlier : list (string * list ascii)) (topic : string)
    (payload : list ascii) (st : State) :
  delivers inp st = true ->
  inbox inp = earlier ++ [(topic, payload)] ->
  startsWith (payloadCommand payload) (if on then CMD_ON else CMD_OFF) = true ->
  let st' := fst (loop inp st) in
  topic = inTopic r st' ->
  (r = Ch2 -> mqttInTopic1 st' <> mqttInTopic2 st') ->
  relayState r st' = on /\ relayPin r st' = on.
Proof.
  intros Hd Hi Hcmd st' Ht Hne.
  destruct (loop_delivers inp st Hd) as (st1 & _ & E).
  fold st' in E. clearbody st'. rewrite Hi, clientLoop_app in E. cbn in E.
  set (sp := clientLoop earlier st1) in *.
  assert (Hc : config st' = config sp).
  { rewrite E. cbn. apply mqttCallback_mqtt. }
  assert (Hs : mqttCallback topic payload sp = relayOp r on sp).
  { rewrite (mqttCallback_onoff on) by exact Hcmd.
    unfold inTopic in Ht. rewrite Hc in Ht, Hne.
    destruct r; subst topic.
    - now rewrite strcmp0_refl.
    - destruct (strcmp0 (mqttInTopic2 sp) (mqttInTopic1 sp)) eqn:En.
      + apply strcmp0_eq in En. exfalso. apply (Hne eq_refl). now symmetry.
      + now rewrite strcmp0_refl. }
  rewrite Hs in E.
  destruct (relayOp_spec r on sp) as (_ & _ & _ & _ & _ & _ & _ & Hr & Hp & _).
  cbv zeta in Hr, Hp.
  assert (G : gpio st' = gpio (relayOp r on sp)) by (rewrite E; reflexivity).
  unfold relayState, relayPin in *. rewrite G. split; assumption.
Qed.

(** * Concrete runs for the further properties *)


Lemma relay_pins_follow_state_witness :
  reachable onlineState /\ pinsMatch onlineState.
Proof.
  assert (R : reachable onlineState).
  { unfold onlineState. apply reachable_cycle; [apply reachable_boot|].
    vm_compute. reflexivity. }
  split; [exact R|exact (relay_pins_follow_state onlineState R)].
Defined.

Lemma portal_opened_at_most_once_witness :
  reachable portalOpen /\ portalOnce portalOpen.
Proof.
  assert (R : reachable portalOpen).
  { unfold portalOpen. apply reachable_cycle; [apply reachable_boot|].
    vm_compute. reflexivity. }
  split; [exact R|exact (portal_opened_at_most_once portalOpen R)].
Defined.

Lemma publications_are_well_formed_witness :
  reachable onlineState /\ Forall wellFormedEvent (events onlineState).
Proof.
  assert (R : reachable onlineState).
  { unfold onlineState. apply reachable_cycle; [apply reachable_boot|].
    vm_compute. reflexivity. }
  split; [exact R|exact (publications_are_well_formed onlineState R)].
Defined.

Lemma last_command_wins_witness :
  let inp := mkInput 0 false false true false None true true
               [("ibnhouse/light/kitchen/cmd1", bytes "1");
                ("ibnhouse/light/kitchen/cmd1", bytes "0")] in
  delivers inp onlineState = true
  /\ isEdge Ch1 (s1Low inp) onlineState = true
  /\ relayState Ch1 (fst (loop inp onlineState)) = false.
Proof.
  cbv zeta.
  set (inp := mkInput 0 false false true false None true true
                [("ibnhouse/light/kitchen/cmd1", bytes "1");
                 ("ibnhouse/light/kitchen/cmd1", bytes "0")]).
  assert (D : delivers inp onlineState = true) by (vm_compute; reflexivity).
  assert (I : inbox inp = [("ibnhouse/light/kitchen/cmd1", bytes "1")]
                          ++ [("ibnhouse/light/kitchen/cmd1", bytes "0")])
    by reflexivity.
  assert (C : startsWith (payloadCommand (bytes "0"))
                (if false then CMD_ON else CMD_OFF) = true)
    by (vm_compute; reflexivity).
  assert (T : "ibnhouse/light/kitchen/cmd1"%string
              = inTopic Ch1 (fst (loop inp onlineState)))
    by (vm_compute; reflexivity).
  assert (N : Ch1 = Ch2 ->
              mqttInTopic1 (fst (loop inp onlineState))
              <> mqttInTopic2 (fst (loop inp onlineState)))
    by (intros H; discriminate H).
  split; [exact D|]. split; [vm_compute; reflexivity|].
  exact (proj1 (last_command_wins Ch1 false inp _ _ _ onlineState D I C T N)).
Defined.
